(** * Kernel launcher of the NVIDIA backend: a shallow embedding

    Source: [third_party/nvidia/backend/launcher.c].

    The C file is a CPython extension module with one entry point,
    [launch], which parses its arguments, runs an optional enter hook,
    marshals the kernel arguments into a buffer of 64-bit words and an
    array of pointers to them, calls [_launch] (which picks
    [cuLaunchKernel] or [cuLaunchKernelEx]), and runs an optional exit
    hook.

    The embedding threads explicitly the two pieces of process-wide state
    the C code touches (CPython's error indicator and the function-local
    [static] handle of [_launch]) and records every call that leaves the
    file (hooks, dynamic loader, driver) in a trace. *)

From Stdlib Require Import ZArith String List Lia Bool.
From stdpp Require Import base option list.

Set Warnings "-register-all".
Local Open Scope Z_scope.

(** ** C integers *)

(** [int] is 32 bits wide; a product that leaves the range wraps around
    (two's complement), which is what the compiled code does. *)
Definition wrap_int (z : Z) : Z := (z + 2 ^ 31) mod 2 ^ 32 - 2 ^ 31.

(** [int * int] *)
Definition mul_int (a b : Z) : Z := wrap_int (a * b).

(** Conversion of an [int] to [unsigned int] (argument passing and
    assignment to the [unsigned int] fields of the driver structures). *)
Definition to_uint (z : Z) : Z := z mod 2 ^ 32.

(** Conversion to [uint64_t] / [unsigned long long]. *)
Definition to_uint64 (z : Z) : Z := z mod 2 ^ 64.

Definition in_int (z : Z) : bool := (- 2 ^ 31 <=? z) && (z <? 2 ^ 31).

Definition NULL : Z := 0.
Definition CUDA_SUCCESS : Z := 0.

(** ** CPython values and the error indicator *)

Inductive PyExcType :=
| PyExc_RuntimeError
| PyExc_OverflowError
| PyExc_TypeError
| PyExc_SystemError
| PyExc_Exception.

Record PyErr := mkPyErr { exc_type : PyExcType; exc_msg : string }.

(** The host values the launcher can receive.  A callable is described by
    what calling it does: return normally, or raise. *)
Inductive PyObject :=
| Py_None
| PyLong (n : Z)
| PyTuple (items : list PyObject)
| PyCallable (raises : option PyErr)
| PyOpaque.

(** What [launch] hands back: [NULL] (an exception is pending) or a new
    reference to [None]. *)
Inductive PyResult := Returned_NULL | Returned_None.

(** ** Driver structures (from [cuda.h]) *)

Inductive CUlaunchAttributeID :=
| CU_LAUNCH_ATTRIBUTE_CLUSTER_DIMENSION
| CU_LAUNCH_ATTRIBUTE_CLUSTER_SCHEDULING_POLICY_PREFERENCE.

Inductive CUclusterSchedulingPolicy :=
| CU_CLUSTER_SCHEDULING_POLICY_DEFAULT
| CU_CLUSTER_SCHEDULING_POLICY_SPREAD
| CU_CLUSTER_SCHEDULING_POLICY_LOAD_BALANCING.

(** The member of the attribute-value union that was written. *)
Inductive CUlaunchAttributeValue :=
| clusterDim (x y z : Z)
| clusterSchedulingPolicyPreference (p : CUclusterSchedulingPolicy).

Record CUlaunchAttribute := mkAttr {
  id : CUlaunchAttributeID;
  value : CUlaunchAttributeValue
}.

Record CUlaunchConfig := mkConfig {
  gridDimX : Z; gridDimY : Z; gridDimZ : Z;
  blockDimX : Z; blockDimY : Z; blockDimZ : Z;
  sharedMemBytes : Z;
  hStream : Z;
  attrs : list CUlaunchAttribute;
  numAttrs : Z
}.

(** ** The marshalled argument buffers

    [arg_vals] is the [uint64_t] array, [arg_ptrs] the [void*] array.
    Both come from [malloc], so a cell holds nothing until it is written.
    A written cell of [arg_ptrs] holds [&arg_vals[j]], kept as the index
    [j]. *)
Record ArgBuffers := mkBuffers {
  arg_vals : list (option Z);
  arg_ptrs : list (option nat)
}.

(** [malloc (n * sizeof ...)] twice: [n] unwritten cells each. *)
Definition malloc_buffers (n : nat) : ArgBuffers :=
  mkBuffers (replicate n None) (replicate n None).

(** [*(uint64_t* )params[i]]: what the driver reads for argument [i]. *)
Definition deref (b : ArgBuffers) (i : nat) : option Z :=
  match arg_ptrs b !! i with
  | Some (Some j) =>
      match arg_vals b !! j with
      | Some (Some w) => Some w
      | _ => None
      end
  | _ => None
  end.

(** ** Calls that leave the file *)

Record KernelCall := mkCall {
  k_f : Z;
  k_gridDimX : Z; k_gridDimY : Z; k_gridDimZ : Z;
  k_blockDimX : Z; k_blockDimY : Z; k_blockDimZ : Z;
  k_sharedMemBytes : Z;
  k_hStream : Z;
  k_kernelParams : ArgBuffers;
  k_extra : Z
}.

Record KernelExCall := mkExCall {
  x_entry : Z;
  x_config : CUlaunchConfig;
  x_f : Z;
  x_kernelParams : ArgBuffers;
  x_extra : Z
}.

Inductive Event :=
| EvCallObject (callable : PyObject)
| EvDlopen (name : string)
| EvDlsym (lib : Z) (name : string)
| EvLaunchKernel (c : KernelCall)
| EvLaunchKernelEx (c : KernelExCall)
| EvGetErrorString (code : Z).

(** The world outside: the dynamic loader and the driver. *)
Record Env := mkEnv {
  dlopen : string -> Z;
  dlsym : Z -> string -> Z * option string;
  cuLaunchKernel : KernelCall -> Z;
  cuLaunchKernelEx : KernelExCall -> Z;
  cuGetErrorString : Z -> string
}.

(** ** Process state and the monad of the embedding *)

Record State := mkState {
  err_indicator : option PyErr;
  cuLaunchKernelExHandle : Z
}.

(** A computation ends normally or traps (a call through a null function
    pointer, or a CPython call that needs the GIL made without it). *)
Inductive Outcome (A : Type) :=
| Ret (a : A)
| Trap.
Arguments Ret {A} a.
Arguments Trap {A}.

Definition M (A : Type) : Type := State -> Outcome A * State * list Event.

Definition ret {A} (a : A) : M A := fun s => (Ret a, s, []).

Definition bind {A B} (m : M A) (f : A -> M B) : M B :=
  fun s =>
    match m s with
    | (Ret a, s1, t1) =>
        match f a s1 with
        | (o, s2, t2) => (o, s2, t1 ++ t2)
        end
    | (Trap, s1, t1) => (Trap, s1, t1)
    end.

Notation "x <- m ;; k" := (bind m (fun x => k))
  (at level 100, m at next level, right associativity).
Notation "m ;;; k" := (bind m (fun _ => k))
  (at level 100, right associativity).

Definition emit (e : Event) : M unit := fun s => (Ret tt, s, [e]).
Definition trap {A} : M A := fun s => (Trap, s, []).
Definition get_state : M State := fun s => (Ret s, s, []).
Definition put_state (s : State) : M unit := fun _ => (Ret tt, s, []).

Definition outcome_of {A} (r : Outcome A * State * list Event) : Outcome A :=
  r.1.1.
Definition state_of {A} (r : Outcome A * State * list Event) : State :=
  r.1.2.
Definition trace_of {A} (r : Outcome A * State * list Event) : list Event :=
  r.2.

(** ** CPython API used by the file *)

Definition PyErr_SetString (t : PyExcType) (msg : string) : M unit :=
  s <- get_state ;;
  put_state (mkState (Some (mkPyErr t msg)) (cuLaunchKernelExHandle s)).

(** [PyErr_SetString] called by a thread that does not hold the GIL: there
    is no thread state to write the exception to, and the call faults. *)
Definition PyErr_SetString_without_GIL (t : PyExcType) (msg : string)
  : M unit := trap.

Definition PyErr_Occurred : M bool :=
  s <- get_state ;;
  ret (match err_indicator s with Some _ => true | None => false end).

(** [PyObject_CallObject(callable, args)]: [true] stands for a non-null
    result. *)
Definition PyObject_CallObject (callable : PyObject) : M bool :=
  emit (EvCallObject callable) ;;;
  match callable with
  | PyCallable None => ret true
  | PyCallable (Some e) =>
      PyErr_SetString (exc_type e) (exc_msg e) ;;; ret false
  | _ =>
      PyErr_SetString PyExc_TypeError "object is not callable" ;;; ret false
  end.

Definition PyTuple_Size (items : list PyObject) : nat := length items.

Definition PyTuple_GetItem (items : list PyObject) (i : nat)
  : option PyObject := items !! i.

(** [PyLong_AsUnsignedLongLong]: on failure an exception is set and
    [(unsigned long long)-1] is returned. *)
Definition PyLong_AsUnsignedLongLong (item : option PyObject) : M Z :=
  match item with
  | Some (PyLong n) =>
      if n <? 0 then
        PyErr_SetString PyExc_OverflowError
          "can't convert negative int to unsigned" ;;;
        ret (to_uint64 (-1))
      else if 2 ^ 64 <=? n then
        PyErr_SetString PyExc_OverflowError "int too big to convert" ;;;
        ret (to_uint64 (-1))
      else ret n
  | Some _ =>
      PyErr_SetString PyExc_TypeError "an integer is required" ;;;
      ret (to_uint64 (-1))
  | None =>
      PyErr_SetString PyExc_SystemError "bad argument to internal function" ;;;
      ret (to_uint64 (-1))
  end.

(** The argument tuple of [launch], field by field in the order of the
    format string ["iiiiiiiiiKKOOOO!"]. *)
Record LaunchArgs := mkArgs {
  a_gridX : Z; a_gridY : Z; a_gridZ : Z;
  a_num_warps : Z;
  a_num_ctas : Z;
  a_clusterDimX : Z; a_clusterDimY : Z; a_clusterDimZ : Z;
  a_shared_memory : Z;
  a_stream : Z;
  a_function : Z;
  a_launch_enter_hook : PyObject;
  a_launch_exit_hook : PyObject;
  a_compiled_kernel : PyObject;
  a_args_obj : PyObject
}.

Record Parsed := mkParsed {
  gridX : Z; gridY : Z; gridZ : Z;
  num_warps : Z;
  num_ctas : Z;
  p_clusterDimX : Z; p_clusterDimY : Z; p_clusterDimZ : Z;
  shared_memory : Z;
  _stream : Z;
  _function : Z;
  launch_enter_hook : PyObject;
  launch_exit_hook : PyObject;
  compiled_kernel : PyObject;
  args_obj : list PyObject
}.

Definition ints_of (a : LaunchArgs) : list Z :=
  [a_gridX a; a_gridY a; a_gridZ a; a_num_warps a; a_num_ctas a;
   a_clusterDimX a; a_clusterDimY a; a_clusterDimZ a; a_shared_memory a].

(** [PyArg_ParseTuple]: an ["i"] field outside the range of [int] raises
    [OverflowError]; ["K"] reduces modulo 2^64 without a check; ["O!"]
    with [PyTuple_Type] demands a tuple. *)
Definition PyArg_ParseTuple (a : LaunchArgs) : M (option Parsed) :=
  if forallb in_int (ints_of a) then
    match a_args_obj a with
    | PyTuple items =>
        ret (Some (mkParsed (a_gridX a) (a_gridY a) (a_gridZ a)
                     (a_num_warps a) (a_num_ctas a)
                     (a_clusterDimX a) (a_clusterDimY a) (a_clusterDimZ a)
                     (a_shared_memory a)
                     (to_uint64 (a_stream a)) (to_uint64 (a_function a))
                     (a_launch_enter_hook a) (a_launch_exit_hook a)
                     (a_compiled_kernel a) items))
    | _ =>
        PyErr_SetString PyExc_TypeError "argument 15 must be tuple" ;;;
        ret None
    end
  else
    PyErr_SetString PyExc_OverflowError
      "signed integer is out of the range of int" ;;;
    ret None.

(** ** The functions of [launcher.c] *)

Section Launcher.

Variable env : Env.

(** [gpuAssert], reached through the macro [CUDA_CHECK].  It runs with the
    GIL released as well, but brackets its [PyErr_SetString] with
    [PyGILState_Ensure] and [PyGILState_Release]. *)
Definition gpuAssert (code : Z) : M unit :=
  if code =? CUDA_SUCCESS then ret tt
  else
    emit (EvGetErrorString code) ;;;
    PyErr_SetString PyExc_RuntimeError
      ("Triton Error [CUDA]: " ++ cuGetErrorString env code)%string.

Definition CUDA_CHECK (ans : M Z) : M unit :=
  code <- ans ;; gpuAssert code.

(** [getLaunchKernelExHandle] is called from [_launch] only, and [launch]
    calls [_launch] between [Py_BEGIN_ALLOW_THREADS] and
    [Py_END_ALLOW_THREADS]: the thread does not hold the GIL there, and
    unlike [gpuAssert] the function does not take it back with
    [PyGILState_Ensure].  Its two calls of [PyErr_SetString] (lines 31 and
    40) therefore fault instead of setting the exception. *)
Definition getLaunchKernelExHandle : M Z :=
  emit (EvDlopen "libcuda.so") ;;;
  let handle := dlopen env "libcuda.so" in
  if handle =? NULL then
    PyErr_SetString_without_GIL PyExc_RuntimeError
      "Failed to open libcuda.so" ;;;
    ret NULL
  else
    emit (EvDlsym handle "cuLaunchKernelEx") ;;;
    match dlsym env handle "cuLaunchKernelEx" with
    | (_, Some _) =>
        PyErr_SetString_without_GIL PyExc_RuntimeError
          "Failed to retrieve cuLaunchKernelEx from libcuda.so" ;;;
        ret NULL
    | (p, None) => ret p
    end.

(** Call through the function pointer [h]. *)
Definition call_handle (h : Z) (c : KernelExCall) : M Z :=
  if h =? NULL then trap
  else emit (EvLaunchKernelEx c) ;;; ret (cuLaunchKernelEx env c).

Definition launchAttr (clusterDimX clusterDimY clusterDimZ : Z)
  : list CUlaunchAttribute :=
  [ mkAttr CU_LAUNCH_ATTRIBUTE_CLUSTER_DIMENSION
      (clusterDim (to_uint clusterDimX) (to_uint clusterDimY)
         (to_uint clusterDimZ));
    mkAttr CU_LAUNCH_ATTRIBUTE_CLUSTER_SCHEDULING_POLICY_PREFERENCE
      (clusterSchedulingPolicyPreference CU_CLUSTER_SCHEDULING_POLICY_SPREAD) ].

(** Lines 69-72 of [_launch]: the function-local [static] handle is
    filled on first use and read back afterwards. *)
Definition resolve_cuLaunchKernelExHandle : M Z :=
  s <- get_state ;;
  (if cuLaunchKernelExHandle s =? NULL then
     h <- getLaunchKernelExHandle ;;
     s' <- get_state ;;
     put_state (mkState (err_indicator s') h)
   else ret tt) ;;;
  s <- get_state ;;
  ret (cuLaunchKernelExHandle s).

(** The argument list of the call on line 49. *)
Definition simple_call (gridX gridY gridZ num_warps shared_memory
                        stream function : Z) (params : ArgBuffers)
  : KernelCall :=
  mkCall function
    (to_uint gridX) (to_uint gridY) (to_uint gridZ)
    (to_uint (mul_int 32 num_warps)) 1 1
    (to_uint shared_memory) stream params 0.

(** The [CUlaunchConfig] filled on lines 51-68. *)
Definition cluster_config (gridX gridY gridZ num_warps
                           clusterDimX clusterDimY clusterDimZ
                           shared_memory stream : Z) : CUlaunchConfig :=
  mkConfig (to_uint (mul_int gridX clusterDimX))
           (to_uint (mul_int gridY clusterDimY))
           (to_uint (mul_int gridZ clusterDimZ))
           (to_uint (mul_int 32 num_warps)) 1 1
           (to_uint shared_memory)
           stream
           (launchAttr clusterDimX clusterDimY clusterDimZ)
           2.

Definition _launch (gridX gridY gridZ num_warps num_ctas
                    clusterDimX clusterDimY clusterDimZ shared_memory
                    stream function : Z) (params : ArgBuffers) : M unit :=
  if 0 <? mul_int (mul_int gridX gridY) gridZ then
    if num_ctas =? 1 then
      CUDA_CHECK (
        let c := simple_call gridX gridY gridZ num_warps shared_memory
                   stream function params in
        emit (EvLaunchKernel c) ;;; ret (cuLaunchKernel env c))
    else
      let config := cluster_config gridX gridY gridZ num_warps
                      clusterDimX clusterDimY clusterDimZ
                      shared_memory stream in
      h <- resolve_cuLaunchKernelExHandle ;;
      CUDA_CHECK (call_handle h (mkExCall h config function params 0))
  else ret tt.

(** The body of the marshalling loop, for [i], [i+1], ... ([n] iterations
    left). *)
Fixpoint marshal_loop (n : nat) (i : nat) (items : list PyObject)
    (b : ArgBuffers) : M ArgBuffers :=
  match n with
  | O => ret b
  | S n' =>
      let item := PyTuple_GetItem items i in
      w <- PyLong_AsUnsignedLongLong item ;;
      let b1 := mkBuffers (<[i := Some w]> (arg_vals b)) (arg_ptrs b) in
      let b2 := mkBuffers (arg_vals b1) (<[i := Some i]> (arg_ptrs b1)) in
      marshal_loop n' (S i) items b2
  end.

Definition marshal (items : list PyObject) : M ArgBuffers :=
  let nargs := PyTuple_Size items in
  marshal_loop nargs 0 items (malloc_buffers nargs).

(** The test [hook != Py_None && !PyObject_CallObject(hook, args)],
    negated: [true] when [launch] goes on. *)
Definition hook_ok (hook : PyObject) : M bool :=
  match hook with
  | Py_None => ret true
  | _ => PyObject_CallObject hook
  end.

(** Lines 103-116: allocate, marshal, call [_launch], free. *)
Definition marshal_and_launch (p : Parsed) : M unit :=
  b <- marshal (args_obj p) ;;
  _launch (gridX p) (gridY p) (gridZ p) (num_warps p) (num_ctas p)
    (p_clusterDimX p) (p_clusterDimY p) (p_clusterDimZ p)
    (shared_memory p) (_stream p) (_function p) b.

Definition launch (args : LaunchArgs) : M PyResult :=
  parsed <- PyArg_ParseTuple args ;;
  match parsed with
  | None => ret Returned_NULL
  | Some p =>
      entered <- hook_ok (launch_enter_hook p) ;;
      if negb entered then ret Returned_NULL
      else
        marshal_and_launch p ;;;
        pending <- PyErr_Occurred ;;
        if pending then ret Returned_NULL
        else
          exited <- hook_ok (launch_exit_hook p) ;;
          if negb exited then ret Returned_NULL
          else ret Returned_None
  end.

End Launcher.

(** A sequence of calls of the entry point in one process: the state left
    by one call is the state the next one starts from. *)
Fixpoint launches (env : Env) (calls : list LaunchArgs) : M unit :=
  match calls with
  | [] => ret tt
  | a :: rest => launch env a ;;; launches env rest
  end.

(** ** Reading traces *)

Definition is_simple_launch (e : Event) : bool :=
  match e with EvLaunchKernel _ => true | _ => false end.

Definition is_extended_launch (e : Event) : bool :=
  match e with EvLaunchKernelEx _ => true | _ => false end.

Definition is_launch (e : Event) : bool :=
  is_simple_launch e || is_extended_launch e.

Definition is_loader_call (e : Event) : bool :=
  match e with EvDlopen _ | EvDlsym _ _ => true | _ => false end.

Definition is_hook_call (e : Event) : bool :=
  match e with EvCallObject _ => true | _ => false end.

(** The grid product as [_launch] computes it. *)
Definition grid_product (gridX gridY gridZ : Z) : Z :=
  mul_int (mul_int gridX gridY) gridZ.

Definition fits_uint (z : Z) : Prop := 0 <= z < 2 ^ 32.

(** ** Concrete worlds used in the examples *)

(** A driver that has [cuLaunchKernelEx] and accepts every launch. *)
Definition env_ok : Env :=
  mkEnv (fun _ => 4096) (fun _ _ => (8192, None))
        (fun _ => CUDA_SUCCESS) (fun _ => CUDA_SUCCESS)
        (fun _ => "unspecified launch failure"%string).

(** An older driver: [dlsym] finds no [cuLaunchKernelEx]. *)
Definition env_old_driver : Env :=
  mkEnv (fun _ => 4096)
        (fun _ _ => (NULL, Some "undefined symbol: cuLaunchKernelEx"%string))
        (fun _ => CUDA_SUCCESS) (fun _ => CUDA_SUCCESS)
        (fun _ => "unspecified launch failure"%string).

(** A fresh process: no exception pending, handle not yet resolved. *)
Definition s_init : State := mkState None NULL.

Definition no_args : ArgBuffers := mkBuffers [] [].

(** The path-selection property read with a non-zero grid product, at one
    input. *)
Definition path_selection_nonzero_at (env : Env) (s : State)
    (gridX gridY gridZ num_warps num_ctas cX cY cZ shmem stream f : Z)
    (params : ArgBuffers) : Prop :=
  grid_product gridX gridY gridZ <> 0 ->
  (num_ctas = 1 ->
     existsb is_simple_launch
       (trace_of (_launch env gridX gridY gridZ num_warps num_ctas
                    cX cY cZ shmem stream f params s)) = true /\
     existsb is_extended_launch
       (trace_of (_launch env gridX gridY gridZ num_warps num_ctas
                    cX cY cZ shmem stream f params s)) = false) /\
  (num_ctas <> 1 ->
     existsb is_extended_launch
       (trace_of (_launch env gridX gridY gridZ num_warps num_ctas
                    cX cY cZ shmem stream f params s)) = true /\
     existsb is_simple_launch
       (trace_of (_launch env gridX gridY gridZ num_warps num_ctas
                    cX cY cZ shmem stream f params s)) = false).

(** The handle [_launch] ends up calling through in state [s]: the cached
    one, or what the loader returns on first use. *)
Definition handle_in (env : Env) (s : State) : Z :=
  match outcome_of (resolve_cuLaunchKernelExHandle env s) with
  | Ret h => h
  | Trap => NULL
  end.

(** The state after a driver call that returned [code]. *)
Definition after_check (env : Env) (code : Z) (s : State) : State :=
  if code =? CUDA_SUCCESS then s
  else mkState
         (Some (mkPyErr PyExc_RuntimeError
                  ("Triton Error [CUDA]: " ++ cuGetErrorString env code)))
         (cuLaunchKernelExHandle s).

(** The events of [gpuAssert] on [code]. *)
Definition check_events (code : Z) : list Event :=
  if code =? CUDA_SUCCESS then [] else [EvGetErrorString code].


(** The direct launch in the words of the specification. *)
Definition simple_call_as_specified (gridX gridY gridZ num_warps
    shared_memory stream function : Z) (params : ArgBuffers) : KernelCall :=
  mkCall function gridX gridY gridZ (32 * num_warps) 1 1
         shared_memory stream params 0.

(** An event that neither touches the loader nor calls an extended
    entry point other than [h]. *)
Definition uses_only (h : Z) (e : Event) : bool :=
  match e with
  | EvDlopen _ | EvDlsym _ _ => false
  | EvLaunchKernelEx c => x_entry c =? h
  | _ => true
  end.

(** A call of the entry point on a (1,1,1) grid with four warps, cluster
    (2,1,1), kernel handle 7, the default stream and no hooks. *)
Definition args_unit_grid (num_ctas : Z) (items : list PyObject)
  : LaunchArgs :=
  mkArgs 1 1 1 4 num_ctas 2 1 1 0 0 7 Py_None Py_None Py_None
         (PyTuple items).

(** A driver on which every simple launch fails with status 719. *)
Definition env_launch_fails : Env :=
  mkEnv (fun _ => 4096) (fun _ _ => (8192, None))
        (fun _ => 719) (fun _ => CUDA_SUCCESS)
        (fun _ => "unspecified launch failure"%string).

(** An enter hook that returns and an exit hook that raises. *)
Definition hook_returns : PyObject := PyCallable None.
Definition hook_raises : PyObject :=
  PyCallable (Some (mkPyErr PyExc_Exception "exit hook failed")).

Definition args_hooked : LaunchArgs :=
  mkArgs 1 1 1 4 1 1 1 1 0 0 7 hook_returns hook_raises Py_None (PyTuple []).

Definition parsed_hooked : Parsed :=
  mkParsed 1 1 1 4 1 1 1 1 0 0 7 hook_returns hook_raises Py_None [].

(** A run of the resolver in state [s]: it returns [h], or it faults, in
    which case [h] is null. *)
Definition resolves_to (env : Env) (s : State) (h : Z) (s' : State)
    (t : list Event) : Prop :=
  resolve_cuLaunchKernelExHandle env s = (Ret h, s', t) \/
  (h = NULL /\ resolve_cuLaunchKernelExHandle env s = (Trap, s', t)).

(** The simple-path property read with a non-zero grid product, at one
    input. *)
Definition simple_path_nonzero_at (env : Env) (s : State)
    (gridX gridY gridZ num_warps num_ctas cX cY cZ shmem stream f : Z)
    (params : ArgBuffers) : Prop :=
  num_ctas = 1 ->
  grid_product gridX gridY gridZ <> 0 ->
  EvLaunchKernel
    (simple_call gridX gridY gridZ num_warps shmem stream f params)
  ∈ trace_of (_launch env gridX gridY gridZ num_warps num_ctas cX cY cZ
                shmem stream f params s).

(** The hook property read without a condition on the device call, at
    one input: an exit hook that is not [None] is called after every
    launch. *)
Definition exit_hook_follows_launch_at (env : Env) (a : LaunchArgs)
    (s : State) : Prop :=
  forall p : Parsed,
    PyArg_ParseTuple a s = (Ret (Some p), s, []) ->
    launch_exit_hook p <> Py_None ->
    forall (t1 : list Event) (e : Event) (t2 : list Event),
      trace_of (launch env a s) = t1 ++ e :: t2 ->
      is_launch e = true ->
      EvCallObject (launch_exit_hook p) ∈ t2.

(** A call on a (1,1,1) grid with an exit hook only. *)
Definition args_exit_hook : LaunchArgs :=
  mkArgs 1 1 1 4 1 1 1 1 0 0 7 Py_None hook_returns Py_None (PyTuple []).

(** The marshalled buffers in the words of the specification: slot [i]
    holds value [i], pointer [i] is the address of slot [i]. *)
Definition buffers_as_specified (values : list Z) : ArgBuffers :=
  mkBuffers (Some <$> values) (Some <$> seq 0 (length values)).

(** The buffers the marshalling loop leaves for [items]. *)
Definition marshalled (items : list PyObject) (s : State) : ArgBuffers :=
  match outcome_of (marshal items s) with
  | Ret b => b
  | Trap => mkBuffers [] []
  end.

(** ** Further readings of values and traces *)

(** An item that [PyLong_AsUnsignedLongLong] converts without raising. *)
Definition convertible (item : PyObject) : bool :=
  match item with
  | PyLong n => (0 <=? n) && (n <? 2 ^ 64)
  | _ => false
  end.

(** A hook whose test lets [launch] go on: [None], or a callable that
    returns. *)
Definition hook_passes (hook : PyObject) : bool :=
  match hook with
  | Py_None | PyCallable None => true
  | _ => false
  end.

(** What the test of a hook contributes to the trace. *)
Definition hook_events (hook : PyObject) : list Event :=
  match hook with
  | Py_None => []
  | _ => [EvCallObject hook]
  end.

Definition is_dlopen (e : Event) : bool :=
  match e with EvDlopen _ => true | _ => false end.

(** A launch whose block is a whole number of warps in x and one thread
    deep in y and z. *)
Definition block_is_warps (e : Event) : bool :=
  match e with
  | EvLaunchKernel c =>
      (k_blockDimX c mod 32 =? 0) && (k_blockDimY c =? 1)
      && (k_blockDimZ c =? 1)
  | EvLaunchKernelEx c =>
      (blockDimX (x_config c) mod 32 =? 0) && (blockDimY (x_config c) =? 1)
      && (blockDimZ (x_config c) =? 1)
  | _ => true
  end.

(** How often a trace opens the driver library. *)
Definition dlopen_count (t : list Event) : nat :=
  length (List.filter is_dlopen t).

(** A call of the entry point whose first grid dimension does not fit in
    an [int]. *)
Definition args_wide_grid : LaunchArgs :=
  mkArgs (2 ^ 31) 1 1 4 1 1 1 1 0 0 7 hook_returns hook_returns Py_None
         (PyTuple []).

(** A call with two argument words and both hooks set, on a (2,2,1)
    grid. *)
Definition args_two_words (num_ctas : Z) : LaunchArgs :=
  mkArgs 2 2 1 8 num_ctas 2 2 1 1024 3 7 hook_returns hook_returns Py_None
         (PyTuple [PyLong 5; PyLong 1000000000000]).

Definition parsed_two_words (num_ctas : Z) : Parsed :=
  mkParsed 2 2 1 8 num_ctas 2 2 1 1024 3 7 hook_returns hook_returns Py_None
           [PyLong 5; PyLong 1000000000000].

(** The exception [gpuAssert] leaves for the status [code]. *)
Definition launch_failure (env : Env) (code : Z) : PyErr :=
  mkPyErr PyExc_RuntimeError
    ("Triton Error [CUDA]: " ++ cuGetErrorString env code).

(** A call of the entry point with an out-of-range argument word. *)
Definition args_mixed : LaunchArgs :=
  mkArgs 1 1 1 4 1 1 1 1 0 0 7 Py_None Py_None Py_None
         (PyTuple [PyLong 5; PyLong (2 ^ 64); PyOpaque]).

Ltac unfold_monad :=
  unfold CUDA_CHECK, gpuAssert, call_handle, resolve_cuLaunchKernelExHandle,
    getLaunchKernelExHandle, PyErr_SetString, PyErr_SetString_without_GIL,
    PyErr_Occurred,
    bind, ret, emit, trap, get_state, put_state in *.

(** * Properties *)

(** ** Arithmetic of the C integer operations *)

Lemma wrap_int_small (z : Z) : - 2 ^ 31 <= z < 2 ^ 31 -> wrap_int z = z.
Proof.
  intros H. unfold wrap_int. rewrite Z.mod_small; lia.
Qed.

Lemma to_uint_wrap_int (z : Z) : to_uint (wrap_int z) = z mod 2 ^ 32.
Proof.
  unfold to_uint, wrap_int.
  rewrite <- Zminus_mod_idemp_l, Z.mod_mod by lia.
  rewrite Zminus_mod_idemp_l. f_equal. lia.
Qed.

Lemma to_uint_mul_int_exact (a b : Z) :
  fits_uint (a * b) -> to_uint (mul_int a b) = a * b.
Proof.
  intros H. unfold mul_int. rewrite to_uint_wrap_int.
  apply Z.mod_small. exact H.
Qed.

Lemma to_uint_exact (z : Z) : fits_uint z -> to_uint z = z.
Proof. intros H. apply Z.mod_small. exact H. Qed.

Lemma grid_product_zero (gridX gridY gridZ : Z) :
  gridX * gridY * gridZ = 0 -> grid_product gridX gridY gridZ = 0.
Proof.
  intros H. unfold grid_product, mul_int.
  apply Z.mul_eq_0 in H as [H | ->].
  - rewrite H. reflexivity.
  - rewrite Z.mul_0_r. reflexivity.
Qed.

(** Non-negative dimensions whose product leaves the range of [int]:
    the 32-bit product wraps to a negative number. *)
Example grid_product_wraps : grid_product 65536 32768 1 = - 2 ^ 31.
Proof. reflexivity. Qed.

Lemma grid_product_exact (gridX gridY gridZ : Z) :
  0 <= gridX -> 0 <= gridY -> 0 <= gridZ ->
  gridX * gridY * gridZ < 2 ^ 31 ->
  0 < gridZ ->
  grid_product gridX gridY gridZ = gridX * gridY * gridZ.
Proof.
  intros Hx Hy Hz Hb Hpos. unfold grid_product, mul_int.
  assert (0 <= gridX * gridY) by lia.
  assert (gridX * gridY < 2 ^ 31) by nia.
  rewrite (wrap_int_small (gridX * gridY)) by lia.
  apply wrap_int_small. nia.
Qed.

Lemma grid_product_nonneg (gridX gridY gridZ : Z) :
  0 <= gridX -> 0 <= gridY -> 0 <= gridZ ->
  gridX * gridY * gridZ < 2 ^ 31 ->
  0 <= grid_product gridX gridY gridZ.
Proof.
  intros Hx Hy Hz Hb.
  destruct (Z.eq_dec gridZ 0) as [-> | Hnz].
  - rewrite grid_product_zero; lia.
  - rewrite grid_product_exact; nia.
Qed.

(** ** The guard of [_launch] *)

Lemma _launch_skipped (env : Env) (s : State)
    (gridX gridY gridZ num_warps num_ctas cX cY cZ shmem stream f : Z)
    (params : ArgBuffers) :
  grid_product gridX gridY gridZ <= 0 ->
  _launch env gridX gridY gridZ num_warps num_ctas cX cY cZ shmem stream f
    params s = (Ret tt, s, []).
Proof.
  intros H. unfold _launch. fold (grid_product gridX gridY gridZ).
  destruct (Z.ltb_spec 0 (grid_product gridX gridY gridZ)); [lia |].
  reflexivity.
Qed.

(** C2. When [gridX*gridY*gridZ] is zero (as an integer product, or as
    the 32-bit product the code computes), [_launch] returns normally,
    leaves the error indicator and the cached handle as they were, and
    calls nothing: neither launch entry point, nor the loader, nor the
    error-string lookup. *)
Theorem degenerate_grid_is_noop (env : Env) (s : State)
    (gridX gridY gridZ num_warps num_ctas cX cY cZ shmem stream f : Z)
    (params : ArgBuffers) :
  gridX * gridY * gridZ = 0 \/ grid_product gridX gridY gridZ = 0 ->
  _launch env gridX gridY gridZ num_warps num_ctas cX cY cZ shmem stream f
    params s = (Ret tt, s, []).
Proof.
  intros H. apply _launch_skipped.
  destruct H as [H | H]; [apply grid_product_zero in H |]; lia.
Qed.

Lemma degenerate_grid_is_noop_witness :
  (4 * 0 * 2 = 0 \/ grid_product 4 0 2 = 0) /\
  _launch env_ok 4 0 2 4 2 2 1 1 0 0 7 no_args s_init = (Ret tt, s_init, []).
Proof.
  split; [left; reflexivity |].
  apply (degenerate_grid_is_noop env_ok s_init 4 0 2 4 2 2 1 1 0 0 7 no_args).
  left; reflexivity.
Defined.

(** C10. When the 32-bit grid product is negative, [_launch] behaves as
    in the zero case: it returns normally with the state untouched and
    the trace empty, so it is the same result as for a zero product.
    For non-negative dimensions whose product fits in [int], the product
    the code computes is not negative. *)
Theorem negative_grid_product_is_noop (env : Env) (s : State)
    (gridX gridY gridZ num_warps num_ctas cX cY cZ shmem stream f : Z)
    (params : ArgBuffers) :
  grid_product gridX gridY gridZ < 0 ->
  _launch env gridX gridY gridZ num_warps num_ctas cX cY cZ shmem stream f
    params s = (Ret tt, s, []) /\
  _launch env gridX gridY gridZ num_warps num_ctas cX cY cZ shmem stream f
    params s =
  _launch env 0 gridY gridZ num_warps num_ctas cX cY cZ shmem stream f
    params s /\
  ~ (0 <= gridX /\ 0 <= gridY /\ 0 <= gridZ /\
     gridX * gridY * gridZ < 2 ^ 31).
Proof.
  intros H. repeat split.
  - apply _launch_skipped. lia.
  - rewrite !_launch_skipped; [reflexivity | | lia].
    rewrite grid_product_zero; lia.
  - intros (Hx & Hy & Hz & Hb).
    pose proof (grid_product_nonneg gridX gridY gridZ Hx Hy Hz Hb). lia.
Qed.

Lemma negative_grid_product_is_noop_witness :
  grid_product (-1) 1 1 < 0 /\
  _launch env_ok (-1) 1 1 4 1 1 1 1 0 0 7 no_args s_init
    = (Ret tt, s_init, []).
Proof.
  split; [reflexivity |].
  apply (negative_grid_product_is_noop env_ok s_init (-1) 1 1 4 1 1 1 1 0 0 7
           no_args).
  reflexivity.
Defined.

(** ** The two paths of [_launch] *)

Lemma _launch_simple_path (env : Env) (s : State)
    (gridX gridY gridZ num_warps cX cY cZ shmem stream f : Z)
    (params : ArgBuffers) :
  0 < grid_product gridX gridY gridZ ->
  _launch env gridX gridY gridZ num_warps 1 cX cY cZ shmem stream f params s
  = (Ret tt,
     after_check env
       (cuLaunchKernel env
          (simple_call gridX gridY gridZ num_warps shmem stream f params)) s,
     EvLaunchKernel
       (simple_call gridX gridY gridZ num_warps shmem stream f params)
     :: check_events
          (cuLaunchKernel env
             (simple_call gridX gridY gridZ num_warps shmem stream f params))).
Proof.
  intros H. unfold _launch. fold (grid_product gridX gridY gridZ).
  destruct (Z.ltb_spec 0 (grid_product gridX gridY gridZ)); [| lia].
  cbn [Z.eqb Pos.eqb]. unfold after_check, check_events. unfold_monad.
  destruct (_ =? CUDA_SUCCESS); reflexivity.
Qed.

(** The resolver returns [handle_in] or faults (then [handle_in] is
    null), leaves that handle in the cache, and calls nothing but the
    loader. *)
Lemma resolve_shape (env : Env) (s : State) :
  exists s' t,
    resolves_to env s (handle_in env s) s' t /\
    cuLaunchKernelExHandle s' = handle_in env s /\
    forallb is_loader_call t = true.
Proof.
  unfold resolves_to, handle_in, outcome_of. unfold_monad.
  destruct (Z.eqb_spec (cuLaunchKernelExHandle s) NULL) as [Hc | Hc]; cbn.
  - destruct (dlopen env "libcuda.so" =? NULL); cbn.
    + eexists _, _. split; [right; split; reflexivity |]. auto.
    + destruct (dlsym env _ _) as [p [e |]]; cbn.
      * eexists _, _. split; [right; split; reflexivity |]. auto.
      * eexists _, _. split; [left; reflexivity |]. auto.
  - eexists _, _. split; [left; reflexivity |]. auto.
Qed.

Lemma resolve_cached (env : Env) (s : State) :
  cuLaunchKernelExHandle s <> NULL ->
  resolve_cuLaunchKernelExHandle env s
  = (Ret (cuLaunchKernelExHandle s), s, []).
Proof.
  intros H. unfold_monad.
  destruct (Z.eqb_spec (cuLaunchKernelExHandle s) NULL); [contradiction |].
  reflexivity.
Qed.

Lemma _launch_cluster_path (env : Env) (s s' : State) (t : list Event)
    (gridX gridY gridZ num_warps num_ctas cX cY cZ shmem stream f h : Z)
    (params : ArgBuffers) :
  0 < grid_product gridX gridY gridZ ->
  num_ctas <> 1 ->
  resolves_to env s h s' t ->
  _launch env gridX gridY gridZ num_warps num_ctas cX cY cZ shmem stream f
    params s
  = if h =? NULL then (Trap, s', t)
    else
      let c := mkExCall h
                 (cluster_config gridX gridY gridZ num_warps cX cY cZ
                    shmem stream) f params 0 in
      (Ret tt, after_check env (cuLaunchKernelEx env c) s',
       t ++ EvLaunchKernelEx c :: check_events (cuLaunchKernelEx env c)).
Proof.
  intros H Hn Hr. unfold _launch. fold (grid_product gridX gridY gridZ).
  destruct (Z.ltb_spec 0 (grid_product gridX gridY gridZ)); [| lia].
  destruct (Z.eqb_spec num_ctas 1); [contradiction |].
  destruct Hr as [Hr | [-> Hr]];
    [| unfold bind at 1; rewrite Hr; reflexivity].
  unfold bind at 1. rewrite Hr.
  unfold after_check, check_events, CUDA_CHECK, gpuAssert, call_handle.
  destruct (h =? NULL).
  - unfold_monad. cbn. rewrite app_nil_r. reflexivity.
  - unfold_monad. cbn.
    destruct (_ =? CUDA_SUCCESS); reflexivity.
Qed.

(** ** What a trace contains *)

Lemma loader_calls_not_launches (t : list Event) :
  forallb is_loader_call t = true ->
  List.filter is_launch t = [] /\
  existsb is_simple_launch t = false /\
  existsb is_extended_launch t = false.
Proof.
  induction t as [| e t IH]; cbn; [auto |].
  intros H. apply andb_prop in H as [He Ht].
  destruct (IH Ht) as (-> & -> & ->).
  destruct e; cbn in *; try discriminate; auto.
Qed.

Lemma check_events_not_launches (code : Z) :
  List.filter is_launch (check_events code) = [] /\
  existsb is_simple_launch (check_events code) = false /\
  existsb is_extended_launch (check_events code) = false.
Proof.
  unfold check_events. destruct (code =? CUDA_SUCCESS); cbn; auto.
Qed.


(** The launches of the cluster path, for a positive grid product. *)
Lemma cluster_path_launches (env : Env) (s : State)
    (gridX gridY gridZ num_warps num_ctas cX cY cZ shmem stream f : Z)
    (params : ArgBuffers) :
  0 < grid_product gridX gridY gridZ ->
  num_ctas <> 1 ->
  List.filter is_launch
    (trace_of (_launch env gridX gridY gridZ num_warps num_ctas cX cY cZ
                 shmem stream f params s))
  = if handle_in env s =? NULL then []
    else [EvLaunchKernelEx
            (mkExCall (handle_in env s)
               (cluster_config gridX gridY gridZ num_warps cX cY cZ
                  shmem stream) f params 0)].
Proof.
  intros Hp Hn.
  destruct (resolve_shape env s) as (s' & t & Hr & _ & Ht).
  rewrite (_launch_cluster_path env s s' t _ _ _ _ _ _ _ _ _ _ _ _ _ Hp Hn Hr).
  apply loader_calls_not_launches in Ht as (Hf & _ & _).
  destruct (handle_in env s =? NULL); cbn [trace_of snd].
  - exact Hf.
  - rewrite List.filter_app, Hf. cbn.
    destruct (check_events_not_launches
                (cuLaunchKernelEx env
                   (mkExCall (handle_in env s)
                      (cluster_config gridX gridY gridZ num_warps cX cY cZ
                         shmem stream) f params 0))) as (-> & _).
    reflexivity.
Qed.

Lemma simple_path_launches (env : Env) (s : State)
    (gridX gridY gridZ num_warps cX cY cZ shmem stream f : Z)
    (params : ArgBuffers) :
  0 < grid_product gridX gridY gridZ ->
  List.filter is_launch
    (trace_of (_launch env gridX gridY gridZ num_warps 1 cX cY cZ
                 shmem stream f params s))
  = [EvLaunchKernel
       (simple_call gridX gridY gridZ num_warps shmem stream f params)].
Proof.
  intros Hp. rewrite _launch_simple_path by exact Hp. cbn.
  destruct (check_events_not_launches
              (cuLaunchKernel env
                 (simple_call gridX gridY gridZ num_warps shmem stream f
                    params))) as (-> & _).
  reflexivity.
Qed.

Lemma filter_launch_exists (t : list Event) :
  existsb is_simple_launch t
  = existsb is_simple_launch (List.filter is_launch t) /\
  existsb is_extended_launch t
  = existsb is_extended_launch (List.filter is_launch t).
Proof.
  induction t as [| e t [IH1 IH2]]; cbn; [auto |].
  destruct e; cbn; auto.
Qed.

(** ** Path selection *)

(** C1, as amended.  For a positive 32-bit grid product: with
    [num_ctas = 1] the simple launch is issued and the extended one is
    not, and the cluster dimensions have no influence on the run; with
    [num_ctas <> 1] the simple launch is not issued, and the extended
    launch is issued whenever the handle (cached, or returned by the
    loader) is not null. *)
Theorem path_selection_positive_product (env : Env) (s : State)
    (gridX gridY gridZ num_warps num_ctas cX cY cZ shmem stream f : Z)
    (params : ArgBuffers) :
  0 < grid_product gridX gridY gridZ ->
  (num_ctas = 1 ->
     existsb is_simple_launch
       (trace_of (_launch env gridX gridY gridZ num_warps num_ctas
                    cX cY cZ shmem stream f params s)) = true /\
     existsb is_extended_launch
       (trace_of (_launch env gridX gridY gridZ num_warps num_ctas
                    cX cY cZ shmem stream f params s)) = false /\
     forall cX' cY' cZ',
       _launch env gridX gridY gridZ num_warps num_ctas
         cX' cY' cZ' shmem stream f params s
       = _launch env gridX gridY gridZ num_warps num_ctas
           cX cY cZ shmem stream f params s) /\
  (num_ctas <> 1 ->
     existsb is_simple_launch
       (trace_of (_launch env gridX gridY gridZ num_warps num_ctas
                    cX cY cZ shmem stream f params s)) = false /\
     (handle_in env s <> NULL ->
      existsb is_extended_launch
        (trace_of (_launch env gridX gridY gridZ num_warps num_ctas
                     cX cY cZ shmem stream f params s)) = true)).
Proof.
  intros Hp. split.
  - intros ->.
    destruct (filter_launch_exists
                (trace_of (_launch env gridX gridY gridZ num_warps 1
                             cX cY cZ shmem stream f params s))) as [-> ->].
    rewrite simple_path_launches by exact Hp.
    split; [reflexivity |]. split; [reflexivity |].
    intros cX' cY' cZ'.
    rewrite !_launch_simple_path by exact Hp. reflexivity.
  - intros Hn.
    destruct (filter_launch_exists
                (trace_of (_launch env gridX gridY gridZ num_warps num_ctas
                             cX cY cZ shmem stream f params s))) as [-> ->].
    rewrite cluster_path_launches by assumption.
    destruct (Z.eqb_spec (handle_in env s) NULL) as [He | He].
    + split; [reflexivity | intros Hh; contradiction].
    + split; reflexivity.
Qed.

Lemma path_selection_positive_product_witness :
  0 < grid_product 2 2 1 /\
  existsb is_extended_launch
    (trace_of (_launch env_ok 2 2 1 8 4 2 2 1 1024 0 7 no_args s_init))
  = true.
Proof.
  split; [reflexivity |].
  refine (proj2 (proj2 (path_selection_positive_product env_ok s_init
                          2 2 1 8 4 2 2 1 1024 0 7 no_args _) _) _).
  - reflexivity.
  - discriminate.
  - vm_compute. discriminate.
Defined.

(** C1, as stated, fails: with [gridX = -1] the grid product is non-zero
    and [num_ctas = 1], yet no launch is issued. *)
Lemma path_selection_nonzero_counterexample :
  ~ path_selection_nonzero_at env_ok s_init (-1) 1 1 4 1 1 1 1 0 0 7 no_args.
Proof.
  intros H.
  assert (grid_product (-1) 1 1 <> 0) as Hnz by (vm_compute; discriminate).
  destruct (H Hnz) as [H1 _].
  destruct (H1 eq_refl) as [Hs _].
  vm_compute in Hs. discriminate.
Qed.

(** ** The simple path *)

(** C4, as amended.  With [num_ctas = 1] and a positive grid product,
    [_launch] issues [cuLaunchKernel], once and as its only launch, with
    the kernel handle, the grid extents, block extents
    [(32*num_warps, 1, 1)], the shared-memory size, the stream, the
    argument-pointer array it was given, and a null [extra].  The extents
    are the given integers whenever these fit the [unsigned int]
    parameters of the driver call. *)
Theorem simple_path_call (env : Env) (s : State)
    (gridX gridY gridZ num_warps num_ctas cX cY cZ shmem stream f : Z)
    (params : ArgBuffers) :
  num_ctas = 1 ->
  0 < grid_product gridX gridY gridZ ->
  EvLaunchKernel
    (simple_call gridX gridY gridZ num_warps shmem stream f params)
  ∈ trace_of (_launch env gridX gridY gridZ num_warps num_ctas
                cX cY cZ shmem stream f params s) /\
  List.filter is_launch
    (trace_of (_launch env gridX gridY gridZ num_warps num_ctas
                 cX cY cZ shmem stream f params s))
  = [EvLaunchKernel
       (simple_call gridX gridY gridZ num_warps shmem stream f params)] /\
  k_extra (simple_call gridX gridY gridZ num_warps shmem stream f params)
  = NULL /\
  (fits_uint gridX -> fits_uint gridY -> fits_uint gridZ ->
   fits_uint (32 * num_warps) -> fits_uint shmem ->
   simple_call gridX gridY gridZ num_warps shmem stream f params
   = simple_call_as_specified gridX gridY gridZ num_warps shmem stream f
       params).
Proof.
  intros -> Hp. split; [| split; [| split]].
  - rewrite _launch_simple_path by exact Hp. cbn. apply list_elem_of_here.
  - apply simple_path_launches. exact Hp.
  - reflexivity.
  - intros Hx Hy Hz Hw Hs. unfold simple_call, simple_call_as_specified.
    rewrite to_uint_mul_int_exact by exact Hw.
    rewrite !to_uint_exact by assumption. reflexivity.
Qed.

(** Scenario A of the specification: grid (1,1,1), four warps, one CTA,
    no arguments. *)
Lemma simple_path_call_witness :
  (1 = 1 /\ 0 < grid_product 1 1 1) /\
  List.filter is_launch
    (trace_of (_launch env_ok 1 1 1 4 1 1 1 1 0 0 7 no_args s_init))
  = [EvLaunchKernel (mkCall 7 1 1 1 128 1 1 0 0 (mkBuffers [] []) 0)].
Proof.
  split; [split; reflexivity |].
  exact (proj1 (proj2 (simple_path_call env_ok s_init
                         1 1 1 4 1 1 1 1 0 0 7 no_args eq_refl eq_refl))).
Defined.

(** C4, as stated, fails: with [gridX = -1] and [num_ctas = 1] the grid
    product is non-zero, yet no direct launch is issued. *)
Lemma simple_path_nonzero_counterexample :
  ~ simple_path_nonzero_at env_ok s_init (-1) 1 1 4 1 1 1 1 0 0 7 no_args.
Proof.
  intros H.
  assert (grid_product (-1) 1 1 <> 0) as Hnz by (vm_compute; discriminate).
  specialize (H eq_refl Hnz).
  rewrite _launch_skipped in H by (vm_compute; discriminate).
  apply elem_of_nil in H. exact H.
Qed.

(** ** The cluster path *)



(** ** Marshalling *)

Lemma PyLong_AsUnsignedLongLong_in_range (v : Z) (s : State) :
  0 <= v < 2 ^ 64 ->
  PyLong_AsUnsignedLongLong (Some (PyLong v)) s = (Ret v, s, []).
Proof.
  intros H. unfold PyLong_AsUnsignedLongLong.
  destruct (Z.ltb_spec v 0); [lia |].
  destruct (Z.leb_spec (2 ^ 64) v); [lia |].
  reflexivity.
Qed.

(** The loop invariant: cells below [i] are kept, cells from [i] on are
    written with the value and the address of their own slot. *)
Lemma marshal_loop_in_range (values : list Z) (s : State) (n : nat) :
  Forall (fun v => 0 <= v < 2 ^ 64) values ->
  forall (i : nat) (b : ArgBuffers),
    (i + n)%nat = length values ->
    length (arg_vals b) = length values ->
    length (arg_ptrs b) = length values ->
    exists b',
      marshal_loop n i (PyLong <$> values) b s = (Ret b', s, []) /\
      length (arg_vals b') = length values /\
      length (arg_ptrs b') = length values /\
      (forall j : nat, (j < i)%nat ->
         arg_vals b' !! j = arg_vals b !! j /\
         arg_ptrs b' !! j = arg_ptrs b !! j) /\
      (forall (j : nat) (v : Z), (i <= j)%nat -> values !! j = Some v ->
         arg_vals b' !! j = Some (Some v) /\
         arg_ptrs b' !! j = Some (Some j)).
Proof.
  intros Hall. induction n as [| n IH]; intros i b Hlen Hv Hp.
  - exists b. cbn. split; [reflexivity |].
    split; [exact Hv |]. split; [exact Hp |]. split; [auto |].
    intros j v Hj Hjv. apply lookup_lt_Some in Hjv. lia.
  - assert (i < length values)%nat as Hi by lia.
    destruct (lookup_lt_is_Some_2 values i Hi) as [w Hw].
    assert (0 <= w < 2 ^ 64) as Hrange.
    { rewrite Forall_lookup in Hall. exact (Hall i w Hw). }
    cbn [marshal_loop]. unfold PyTuple_GetItem.
    rewrite list_lookup_fmap, Hw. cbn [fmap option_fmap option_map].
    unfold bind at 1. rewrite PyLong_AsUnsignedLongLong_in_range by exact Hrange.
    cbn [arg_vals arg_ptrs].
    destruct (IH (S i)
                (mkBuffers (<[i := Some w]> (arg_vals b))
                           (<[i := Some i]> (arg_ptrs b))))
      as (b' & Hrun & Hv' & Hp' & Hkeep & Hnew).
    { lia. }
    { cbn. rewrite length_insert. exact Hv. }
    { cbn. rewrite length_insert. exact Hp. }
    exists b'. rewrite Hrun. cbn [app]. split; [reflexivity |].
    split; [exact Hv' |]. split; [exact Hp' |]. split.
    + intros j Hj. destruct (Hkeep j ltac:(lia)) as [-> ->]. cbn.
      rewrite !list_lookup_insert_ne by lia. auto.
    + intros j v Hj Hjv.
      destruct (decide (j = i)) as [-> | Hne].
      * destruct (Hkeep i ltac:(lia)) as [-> ->]. cbn.
        rewrite !list_lookup_insert_eq by lia.
        rewrite Hw in Hjv. injection Hjv as <-. auto.
      * apply Hnew; [lia | exact Hjv].
Qed.

(** Marshalling calls nothing outside the file and always returns. *)
Lemma marshal_loop_returns (items : list PyObject) (n : nat) :
  forall (i : nat) (b : ArgBuffers) (s : State),
    exists b' s',
      marshal_loop n i items b s = (Ret b', s', []) /\
      cuLaunchKernelExHandle s' = cuLaunchKernelExHandle s.
Proof.
  induction n as [| n IH]; intros i b s.
  - exists b, s. split; reflexivity.
  - cbn [marshal_loop].
    assert (exists w s1,
              PyLong_AsUnsignedLongLong (PyTuple_GetItem items i) s
              = (Ret w, s1, []) /\
              cuLaunchKernelExHandle s1 = cuLaunchKernelExHandle s)
      as (w & s1 & Hc & Hh).
    { unfold PyLong_AsUnsignedLongLong.
      destruct (PyTuple_GetItem items i) as [[| n0 | | |] |];
        try (unfold_monad; cbn; eauto; fail).
      destruct (n0 <? 0); [unfold_monad; cbn; eauto |].
      destruct (2 ^ 64 <=? n0); unfold_monad; cbn; eauto. }
    unfold bind at 1. rewrite Hc.
    destruct (IH (S i)
                (mkBuffers (<[i := Some w]> (arg_vals b))
                           (<[i := Some i]> (arg_ptrs b))) s1)
      as (b' & s' & Hrun & Hh').
    cbn [arg_vals arg_ptrs]. rewrite Hrun.
    exists b', s'. split; [reflexivity | congruence].
Qed.

(** ** The phases of [launch] *)

(** A hook test returns, and calls the hook exactly when it is not
    [None]. *)
Lemma hook_ok_shape (hook : PyObject) (s : State) :
  exists ok s',
    hook_ok hook s
    = (Ret ok, s', match hook with Py_None => [] | _ => [EvCallObject hook] end)
    /\ cuLaunchKernelExHandle s' = cuLaunchKernelExHandle s.
Proof.
  destruct hook as [| n | items | [e |] |]; cbn; unfold_monad; cbn; eauto.
Qed.

Lemma launch_run (env : Env) (a : LaunchArgs) (p : Parsed)
    (s s1 : State) (ok1 : bool) (t1 : list Event) :
  PyArg_ParseTuple a s = (Ret (Some p), s, []) ->
  hook_ok (launch_enter_hook p) s = (Ret ok1, s1, t1) ->
  launch env a s
  = if ok1 then
      match marshal_and_launch env p s1 with
      | (Ret _, s2, t2) =>
          match err_indicator s2 with
          | Some _ => (Ret Returned_NULL, s2, t1 ++ t2)
          | None =>
              match hook_ok (launch_exit_hook p) s2 with
              | (Ret ok2, s3, t3) =>
                  (Ret (if ok2 then Returned_None else Returned_NULL),
                   s3, t1 ++ t2 ++ t3)
              | (Trap, s3, t3) => (Trap, s3, t1 ++ t2 ++ t3)
              end
          end
      | (Trap, s2, t2) => (Trap, s2, t1 ++ t2)
      end
    else (Ret Returned_NULL, s1, t1).
Proof.
  intros Hparse Hhook. unfold launch.
  unfold bind at 1. rewrite Hparse. cbn [app].
  unfold bind at 1. rewrite Hhook.
  destruct ok1; cbn [negb].
  - unfold bind at 1.
    destruct (marshal_and_launch env p s1) as [[[[] |] s2] t2].
    + unfold PyErr_Occurred, get_state, ret, bind. cbn.
      destruct (err_indicator s2) as [e |].
      * cbn. rewrite !app_nil_r. reflexivity.
      * destruct (hook_ok (launch_exit_hook p) s2) as [[[[] |] s3] t3];
          cbn; rewrite ?app_nil_r; reflexivity.
    + reflexivity.
  - cbn. rewrite app_nil_r. reflexivity.
Qed.

(** ** The cached handle *)

Lemma after_check_handle (env : Env) (code : Z) (s : State) :
  cuLaunchKernelExHandle (after_check env code s) = cuLaunchKernelExHandle s.
Proof. unfold after_check. destruct (code =? CUDA_SUCCESS); reflexivity. Qed.

Lemma check_events_uses_only (h code : Z) :
  forallb (uses_only h) (check_events code) = true.
Proof. unfold check_events. destruct (code =? CUDA_SUCCESS); reflexivity. Qed.

(** With a handle in the cache, [_launch] returns, keeps the handle, and
    stays away from the loader. *)
Lemma _launch_cached (env : Env) (s : State)
    (gridX gridY gridZ num_warps num_ctas cX cY cZ shmem stream f : Z)
    (params : ArgBuffers) :
  cuLaunchKernelExHandle s <> NULL ->
  exists s' t,
    _launch env gridX gridY gridZ num_warps num_ctas cX cY cZ shmem stream f
      params s = (Ret tt, s', t) /\
    cuLaunchKernelExHandle s' = cuLaunchKernelExHandle s /\
    forallb (uses_only (cuLaunchKernelExHandle s)) t = true.
Proof.
  intros Hh.
  destruct (Z.lt_ge_cases 0 (grid_product gridX gridY gridZ)) as [Hp | Hp].
  - destruct (Z.eq_dec num_ctas 1) as [-> | Hn].
    + rewrite _launch_simple_path by exact Hp.
      eexists _, _. split; [reflexivity |].
      split; [apply after_check_handle |].
      cbn. apply check_events_uses_only.
    + rewrite (_launch_cluster_path env s s [] _ _ _ _ _ _ _ _ _ _ _
                 (cuLaunchKernelExHandle s) _ Hp Hn
                 (or_introl (resolve_cached env s Hh))).
      destruct (Z.eqb_spec (cuLaunchKernelExHandle s) NULL); [contradiction |].
      eexists _, _. split; [reflexivity |].
      split; [apply after_check_handle |].
      cbn. rewrite Z.eqb_refl. apply check_events_uses_only.
  - rewrite _launch_skipped by lia. eauto.
Qed.

Lemma PyArg_ParseTuple_shape (a : LaunchArgs) (s : State) :
  (exists p, PyArg_ParseTuple a s = (Ret (Some p), s, [])) \/
  (exists s', PyArg_ParseTuple a s = (Ret None, s', []) /\
              cuLaunchKernelExHandle s' = cuLaunchKernelExHandle s).
Proof.
  unfold PyArg_ParseTuple.
  destruct (forallb in_int (ints_of a)).
  - destruct (a_args_obj a); try (right; unfold_monad; cbn; eauto; fail).
    left. eauto.
  - right. unfold_monad. cbn. eauto.
Qed.

Lemma hook_events_use_only (h : Z) (hook : PyObject) :
  forallb (uses_only h)
    match hook with Py_None => [] | _ => [EvCallObject hook] end = true.
Proof. destruct hook; reflexivity. Qed.

Lemma launch_cached (env : Env) (a : LaunchArgs) (s : State) :
  cuLaunchKernelExHandle s <> NULL ->
  exists r s' t,
    launch env a s = (Ret r, s', t) /\
    cuLaunchKernelExHandle s' = cuLaunchKernelExHandle s /\
    forallb (uses_only (cuLaunchKernelExHandle s)) t = true.
Proof.
  intros Hh.
  destruct (PyArg_ParseTuple_shape a s) as [[p Hp] | (s' & Hp & Hs')].
  - destruct (hook_ok_shape (launch_enter_hook p) s) as (ok1 & s1 & H1 & Hs1).
    rewrite (launch_run env a p s s1 ok1 _ Hp H1).
    pose proof (hook_events_use_only (cuLaunchKernelExHandle s)
                  (launch_enter_hook p)) as Ht1.
    destruct ok1; [| eauto 6].
    unfold marshal_and_launch.
    destruct (marshal_loop_returns (args_obj p) (PyTuple_Size (args_obj p))
                0%nat (malloc_buffers (PyTuple_Size (args_obj p))) s1)
      as (b & s1' & Hm & Hs1').
    unfold bind at 1. unfold marshal. rewrite Hm.
    destruct (_launch_cached env s1' (gridX p) (gridY p) (gridZ p)
                (num_warps p) (num_ctas p) (p_clusterDimX p)
                (p_clusterDimY p) (p_clusterDimZ p) (shared_memory p)
                (_stream p) (_function p) b ltac:(congruence))
      as (s2 & t2 & H2 & Hs2 & Ht2).
    rewrite H2. cbn [app].
    replace (cuLaunchKernelExHandle s1') with (cuLaunchKernelExHandle s)
      in Ht2 by congruence.
    destruct (err_indicator s2).
    + eexists _, _, _. split; [reflexivity |].
      split; [congruence |]. rewrite forallb_app, Ht1, Ht2. reflexivity.
    + destruct (hook_ok_shape (launch_exit_hook p) s2)
        as (ok2 & s3 & H3 & Hs3).
      rewrite H3. eexists _, _, _. split; [reflexivity |].
      split; [congruence |].
      rewrite !forallb_app, Ht1, Ht2.
      rewrite (hook_events_use_only (cuLaunchKernelExHandle s)
                 (launch_exit_hook p)).
      reflexivity.
  - unfold launch. unfold bind at 1. rewrite Hp. cbn. eauto 6.
Qed.

Lemma launches_cached (env : Env) (calls : list LaunchArgs) :
  forall s : State,
    cuLaunchKernelExHandle s <> NULL ->
    exists s' t,
      launches env calls s = (Ret tt, s', t) /\
      cuLaunchKernelExHandle s' = cuLaunchKernelExHandle s /\
      forallb (uses_only (cuLaunchKernelExHandle s)) t = true.
Proof.
  induction calls as [| a calls IH]; intros s Hh.
  - exists s, []. repeat split.
  - destruct (launch_cached env a s Hh) as (r & s1 & t1 & H1 & Hs1 & Ht1).
    destruct (IH s1 ltac:(congruence)) as (s2 & t2 & H2 & Hs2 & Ht2).
    cbn [launches]. unfold bind. rewrite H1, H2.
    exists s2, (t1 ++ t2). split; [reflexivity |].
    split; [congruence |].
    rewrite forallb_app, Ht1. rewrite Hs1 in Ht2. rewrite Ht2. reflexivity.
Qed.

(** C8.  Once a resolution has returned a non-null handle, resolving
    again returns the same handle, leaves the state as it is and calls
    neither [dlopen] nor [dlsym].  From then on, through any sequence of
    calls of the entry point, the cached handle stays the same, the
    loader is never called, and every extended launch goes through that
    handle. *)
Theorem resolver_idempotent (env : Env) :
  (forall (s s1 : State) (h : Z) (t1 : list Event),
     resolve_cuLaunchKernelExHandle env s = (Ret h, s1, t1) ->
     h <> NULL ->
     resolve_cuLaunchKernelExHandle env s1 = (Ret h, s1, [])) /\
  (forall (calls : list LaunchArgs) (s : State),
     cuLaunchKernelExHandle s <> NULL ->
     outcome_of (launches env calls s) = Ret tt /\
     cuLaunchKernelExHandle (state_of (launches env calls s))
     = cuLaunchKernelExHandle s /\
     existsb is_loader_call (trace_of (launches env calls s)) = false /\
     forall c, EvLaunchKernelEx c ∈ trace_of (launches env calls s) ->
               x_entry c = cuLaunchKernelExHandle s).
Proof.
  split.
  - intros s s1 h t1 Hr Hh.
    destruct (resolve_shape env s) as (s' & t & [Hr' | [_ Hr']] & Hc & _);
      rewrite Hr in Hr'; [| discriminate].
    injection Hr' as Heq <- <-.
    rewrite <- Heq in Hc.
    rewrite resolve_cached by congruence. rewrite Hc. reflexivity.
  - intros calls s Hh.
    destruct (launches_cached env calls s Hh) as (s' & t & Hrun & Hs' & Ht).
    rewrite Hrun. cbn [outcome_of state_of trace_of fst snd].
    split; [reflexivity |]. split; [exact Hs' |].
    rewrite forallb_forall in Ht. split.
    + apply not_true_is_false. intros Hex.
      apply existsb_exists in Hex as (e & Hin & He).
      specialize (Ht e Hin). destruct e; cbn in *; discriminate.
    + intros c Hin. apply list_elem_of_In in Hin.
      specialize (Ht _ Hin). cbn in Ht. apply Z.eqb_eq. exact Ht.
Qed.

Lemma resolver_idempotent_witness :
  (resolve_cuLaunchKernelExHandle env_ok s_init
   = (Ret 8192, mkState None 8192,
      [EvDlopen "libcuda.so"; EvDlsym 4096 "cuLaunchKernelEx"]) /\
   8192 <> NULL) /\
  resolve_cuLaunchKernelExHandle env_ok (mkState None 8192)
  = (Ret 8192, mkState None 8192, []).
Proof.
  assert (resolve_cuLaunchKernelExHandle env_ok s_init
          = (Ret 8192, mkState None 8192,
             [EvDlopen "libcuda.so"; EvDlsym 4096 "cuLaunchKernelEx"]))
    as Hfirst by reflexivity.
  assert (8192 <> NULL) as Hnz by discriminate.
  split; [split; assumption |].
  exact (proj1 (resolver_idempotent env_ok) s_init (mkState None 8192) 8192
           _ Hfirst Hnz).
Defined.

(** ** Hooks *)

Lemma hook_ok_called (hook : PyObject) (s : State) :
  hook <> Py_None ->
  exists ok s',
    hook_ok hook s = (Ret ok, s', [EvCallObject hook]) /\
    (forall e, hook = PyCallable (Some e) ->
               ok = false /\ err_indicator s' = Some e) /\
    (hook = PyCallable None -> ok = true /\ s' = s).
Proof.
  intros Hn.
  destruct hook as [| n | items | [e |] |]; [contradiction | ..];
    cbn; unfold_monad; cbn; eexists _, _;
    (split; [reflexivity |]); split; try discriminate; auto.
  intros e' He. injection He as <-. destruct e; auto.
Qed.

(** The part of [launch] between the hooks calls no hook. *)
Lemma marshal_and_launch_no_hook (env : Env) (p : Parsed) (s : State) :
  existsb is_hook_call (trace_of (marshal_and_launch env p s)) = false.
Proof.
  unfold marshal_and_launch, marshal.
  destruct (marshal_loop_returns (args_obj p) (PyTuple_Size (args_obj p))
              0%nat (malloc_buffers (PyTuple_Size (args_obj p))) s)
    as (b & s1 & Hm & _).
  unfold bind at 1. rewrite Hm.
  set (gp := grid_product (gridX p) (gridY p) (gridZ p)).
  assert (existsb is_hook_call
            (trace_of (_launch env (gridX p) (gridY p) (gridZ p)
                         (num_warps p) (num_ctas p) (p_clusterDimX p)
                         (p_clusterDimY p) (p_clusterDimZ p)
                         (shared_memory p) (_stream p) (_function p) b s1))
          = false) as H.
  { destruct (Z.lt_ge_cases 0 gp) as [Hp | Hp].
    - destruct (Z.eq_dec (num_ctas p) 1) as [Hn | Hn].
      + rewrite Hn, _launch_simple_path by exact Hp. cbn.
        unfold check_events. destruct (_ =? CUDA_SUCCESS); reflexivity.
      + destruct (resolve_shape env s1) as (s2 & t & Hr & _ & Ht).
        rewrite (_launch_cluster_path env s1 s2 t _ _ _ _ _ _ _ _ _ _ _ _ _
                   Hp Hn Hr).
        assert (existsb is_hook_call t = false) as Hnh.
        { clear - Ht. induction t as [| e t IH]; [reflexivity |].
          cbn in *. apply andb_prop in Ht as [He Ht].
          rewrite (IH Ht). destruct e; cbn in *; try discriminate;
            reflexivity. }
        destruct (handle_in env s1 =? NULL); cbn [trace_of snd].
        * exact Hnh.
        * rewrite existsb_app, Hnh. cbn.
          unfold check_events. destruct (_ =? CUDA_SUCCESS); reflexivity.
    - rewrite _launch_skipped by exact Hp. reflexivity. }
  destruct (_launch env _ _ _ _ _ _ _ _ _ _ _ b s1) as [[o s2] t2].
  exact H.
Qed.

(** C9, as amended.  After a successful parse, a hook that is not [None]
    is called: the enter hook as the first event, before everything
    [marshal_and_launch] does, and the exit hook as the last event, after
    it, once the device part has returned with no exception pending.
    When the device part returns with an exception pending, [launch]
    returns [NULL] at once and the exit hook is not called.  When the
    enter hook fails, [launch] returns [NULL] with the hook call as its
    only event, so nothing was launched; when the exit hook fails,
    [launch] returns [NULL] after the device part.  In both cases the
    exception raised by the hook is the one left pending. *)
Theorem hooks_bracket_device_call (env : Env) (a : LaunchArgs) (p : Parsed)
    (s : State) :
  PyArg_ParseTuple a s = (Ret (Some p), s, []) ->
  (launch_enter_hook p <> Py_None ->
   exists ok s1,
     hook_ok (launch_enter_hook p) s
     = (Ret ok, s1, [EvCallObject (launch_enter_hook p)]) /\
     (ok = false ->
      launch env a s
      = (Ret Returned_NULL, s1, [EvCallObject (launch_enter_hook p)])) /\
     (ok = true ->
      exists t,
        trace_of (launch env a s)
        = EvCallObject (launch_enter_hook p)
          :: trace_of (marshal_and_launch env p s1) ++ t) /\
     (forall e, launch_enter_hook p = PyCallable (Some e) ->
                ok = false /\ err_indicator s1 = Some e)) /\
  (launch_exit_hook p <> Py_None ->
   forall (s1 s2 : State) (t1 t2 : list Event),
     hook_ok (launch_enter_hook p) s = (Ret true, s1, t1) ->
     marshal_and_launch env p s1 = (Ret tt, s2, t2) ->
     err_indicator s2 = None ->
     exists ok s3,
       hook_ok (launch_exit_hook p) s2
       = (Ret ok, s3, [EvCallObject (launch_exit_hook p)]) /\
       launch env a s
       = (Ret (if ok then Returned_None else Returned_NULL), s3,
          t1 ++ t2 ++ [EvCallObject (launch_exit_hook p)]) /\
       (forall e, launch_exit_hook p = PyCallable (Some e) ->
                  ok = false /\ err_indicator s3 = Some e)) /\
  (forall s1 : State,
     existsb is_hook_call (trace_of (marshal_and_launch env p s1)) = false) /\
  (forall (s1 s2 : State) (t1 t2 : list Event) (e : PyErr),
     hook_ok (launch_enter_hook p) s = (Ret true, s1, t1) ->
     marshal_and_launch env p s1 = (Ret tt, s2, t2) ->
     err_indicator s2 = Some e ->
     launch env a s = (Ret Returned_NULL, s2, t1 ++ t2)).
Proof.
  intros Hparse. split; [| split; [| split]].
  - intros Hn.
    destruct (hook_ok_called (launch_enter_hook p) s Hn)
      as (ok & s1 & Hh & Hfail & _).
    exists ok, s1. split; [exact Hh |].
    split; [| split; [| exact Hfail]].
    + intros ->. rewrite (launch_run env a p s s1 false _ Hparse Hh).
      reflexivity.
    + intros ->. rewrite (launch_run env a p s s1 true _ Hparse Hh).
      destruct (marshal_and_launch env p s1) as [[[[] |] s2] t2].
      * destruct (err_indicator s2).
        -- exists []. cbn. rewrite app_nil_r. reflexivity.
        -- destruct (hook_ok (launch_exit_hook p) s2) as [[[ok2 |] s3] t3];
             exists t3; reflexivity.
      * exists []. cbn. rewrite app_nil_r. reflexivity.
  - intros Hn s1 s2 t1 t2 Henter Hdev Herr.
    destruct (hook_ok_called (launch_exit_hook p) s2 Hn)
      as (ok & s3 & Hh & Hfail & _).
    exists ok, s3. split; [exact Hh |]. split; [| exact Hfail].
    rewrite (launch_run env a p s s1 true t1 Hparse Henter).
    rewrite Hdev, Herr, Hh. reflexivity.
  - intros s1. apply marshal_and_launch_no_hook.
  - intros s1 s2 t1 t2 e Henter Hdev Herr.
    rewrite (launch_run env a p s s1 true t1 Hparse Henter).
    rewrite Hdev, Herr. reflexivity.
Qed.

Lemma hooks_bracket_device_call_witness :
  (PyArg_ParseTuple args_hooked s_init
   = (Ret (Some parsed_hooked), s_init, []) /\
   launch_exit_hook parsed_hooked <> Py_None /\
   hook_ok (launch_enter_hook parsed_hooked) s_init
   = (Ret true, s_init, [EvCallObject hook_returns]) /\
   marshal_and_launch env_ok parsed_hooked s_init
   = (Ret tt, s_init,
      [EvLaunchKernel (mkCall 7 1 1 1 128 1 1 0 0 (mkBuffers [] []) 0)]) /\
   err_indicator s_init = None) /\
  launch env_ok args_hooked s_init
  = (Ret Returned_NULL,
     mkState (Some (mkPyErr PyExc_Exception "exit hook failed")) NULL,
     [EvCallObject hook_returns;
      EvLaunchKernel (mkCall 7 1 1 1 128 1 1 0 0 (mkBuffers [] []) 0);
      EvCallObject hook_raises]).
Proof.
  assert (PyArg_ParseTuple args_hooked s_init
          = (Ret (Some parsed_hooked), s_init, [])) as Hparse by reflexivity.
  assert (launch_exit_hook parsed_hooked <> Py_None) as Hexit
    by discriminate.
  assert (hook_ok (launch_enter_hook parsed_hooked) s_init
          = (Ret true, s_init, [EvCallObject hook_returns])) as Henter
    by reflexivity.
  assert (marshal_and_launch env_ok parsed_hooked s_init
          = (Ret tt, s_init,
             [EvLaunchKernel
                (mkCall 7 1 1 1 128 1 1 0 0 (mkBuffers [] []) 0)])) as Hdev
    by reflexivity.
  split; [repeat split; assumption |].
  destruct (proj1 (proj2 (hooks_bracket_device_call env_ok args_hooked
                            parsed_hooked s_init Hparse))
              Hexit s_init s_init _ _ Henter Hdev eq_refl)
    as (ok & s3 & Hh & Hrun & _).
  cbn in Hh. injection Hh as <- <-. exact Hrun.
Defined.

(** ** A missing [cuLaunchKernelEx] *)

(** On the cluster path with an empty cache, when the library opens but
    [dlsym] reports an error, the attempt to set the exception faults:
    nothing is launched, no exception is set, and [_launch] does not
    return. *)
Lemma cluster_launch_without_symbol_traps (env : Env) (s : State)
    (gridX gridY gridZ num_warps num_ctas cX cY cZ shmem stream f : Z)
    (params : ArgBuffers) :
  0 < grid_product gridX gridY gridZ ->
  num_ctas <> 1 ->
  cuLaunchKernelExHandle s = NULL ->
  dlopen env "libcuda.so" <> NULL ->
  snd (dlsym env (dlopen env "libcuda.so") "cuLaunchKernelEx") <> None ->
  _launch env gridX gridY gridZ num_warps num_ctas cX cY cZ shmem stream f
    params s
  = (Trap, s,
     [EvDlopen "libcuda.so";
      EvDlsym (dlopen env "libcuda.so") "cuLaunchKernelEx"]).
Proof.
  intros Hp Hn Hc Ho Hs.
  rewrite (_launch_cluster_path env s s
             [EvDlopen "libcuda.so";
              EvDlsym (dlopen env "libcuda.so") "cuLaunchKernelEx"]
             _ _ _ _ _ _ _ _ _ _ _ NULL _ Hp Hn).
  - reflexivity.
  - right. split; [reflexivity |].
    unfold_monad. rewrite Hc. cbn.
    destruct (Z.eqb_spec (dlopen env "libcuda.so") NULL); [contradiction |].
    destruct (dlsym env (dlopen env "libcuda.so") "cuLaunchKernelEx")
      as [ptr [msg |]]; [reflexivity | contradiction].
Qed.

(** The simple path does not look at the loader. *)
Lemma simple_path_ignores_loader (env env' : Env) (s : State)
    (gridX gridY gridZ num_warps cX cY cZ shmem stream f : Z)
    (params : ArgBuffers) :
  cuLaunchKernel env' = cuLaunchKernel env ->
  cuGetErrorString env' = cuGetErrorString env ->
  _launch env' gridX gridY gridZ num_warps 1 cX cY cZ shmem stream f params s
  = _launch env gridX gridY gridZ num_warps 1 cX cY cZ shmem stream f
      params s.
Proof.
  intros Hl He.
  destruct (Z.lt_ge_cases 0 (grid_product gridX gridY gridZ)) as [Hp | Hp].
  - rewrite !_launch_simple_path by exact Hp.
    unfold after_check. rewrite Hl, He. reflexivity.
  - rewrite !_launch_skipped by exact Hp. reflexivity.
Qed.

(** C6, on the code.  With a driver that lacks [cuLaunchKernelEx], a
    dispatch on a (1,1,1) grid with two CTAs reaches the failure branch of
    the resolver after [dlopen] and [dlsym]; the exception it tries to set
    there is set without the GIL, so the call faults: [_launch] and
    [launch] do not return, nothing is launched, and no exception is left
    for the caller.  On the same driver the launch with one CTA goes
    through. *)
Theorem missing_symbol_not_reported :
  _launch env_old_driver 1 1 1 4 2 2 1 1 0 0 7 no_args s_init
  = (Trap, s_init,
     [EvDlopen "libcuda.so"; EvDlsym 4096 "cuLaunchKernelEx"]) /\
  launch env_old_driver (args_unit_grid 2 []) s_init
  = (Trap, s_init,
     [EvDlopen "libcuda.so"; EvDlsym 4096 "cuLaunchKernelEx"]) /\
  launch env_old_driver (args_unit_grid 1 []) s_init
  = (Ret Returned_None, s_init,
     [EvLaunchKernel (mkCall 7 1 1 1 128 1 1 0 0 (mkBuffers [] []) 0)]).
Proof.
  split; [| split].
  - apply cluster_launch_without_symbol_traps;
      [reflexivity | discriminate | reflexivity | discriminate
      | discriminate].
  - reflexivity.
  - reflexivity.
Qed.

(** ** An argument outside the range of [uint64_t] *)

(** C7, on the code.  With the argument tuple [(-1,)] the conversion
    sets [OverflowError] and yields the word [2^64 - 1]; the loop goes on,
    and [cuLaunchKernel] is called with that word in slot 0.  [launch]
    returns [NULL] only afterwards.  When the launch itself fails, the
    exception left pending is the launch failure, not the conversion
    failure. *)
Theorem unconvertible_argument_is_launched :
  launch env_ok (args_unit_grid 1 [PyLong (-1)]) s_init
  = (Ret Returned_NULL,
     mkState
       (Some (mkPyErr PyExc_OverflowError
                "can't convert negative int to unsigned"))
       NULL,
     [EvLaunchKernel
        (mkCall 7 1 1 1 128 1 1 0 0
           (mkBuffers [Some 18446744073709551615] [Some 0%nat]) 0)]) /\
  deref (mkBuffers [Some 18446744073709551615] [Some 0%nat]) 0
  = Some (2 ^ 64 - 1) /\
  launch env_launch_fails (args_unit_grid 1 [PyLong (-1)]) s_init
  = (Ret Returned_NULL,
     mkState
       (Some (mkPyErr PyExc_RuntimeError
                "Triton Error [CUDA]: unspecified launch failure"))
       NULL,
     [EvLaunchKernel
        (mkCall 7 1 1 1 128 1 1 0 0
           (mkBuffers [Some 18446744073709551615] [Some 0%nat]) 0);
      EvGetErrorString 719]).
Proof.
  split; [| split]; reflexivity.
Qed.

(** * Further properties of the launcher *)

(** ** Conversion of arbitrary items *)

Lemma PyLong_AsUnsignedLongLong_cases (item : PyObject) (s : State) :
  (exists n, item = PyLong n /\ 0 <= n < 2 ^ 64 /\ convertible item = true /\
             PyLong_AsUnsignedLongLong (Some item) s = (Ret n, s, [])) \/
  (exists e, convertible item = false /\
             PyLong_AsUnsignedLongLong (Some item) s
             = (Ret (2 ^ 64 - 1),
                mkState (Some e) (cuLaunchKernelExHandle s), [])).
Proof.
  destruct item as [| n | items | r |];
    try (right; eexists; split; [reflexivity |]; reflexivity).
  cbn [PyLong_AsUnsignedLongLong convertible].
  destruct (Z.ltb_spec n 0) as [Hneg | Hnn].
  - right. eexists. split; [| reflexivity].
    destruct (Z.leb_spec 0 n); [lia | reflexivity].
  - destruct (Z.leb_spec (2 ^ 64) n) as [Hbig | Hsmall].
    + right. eexists. split; [| reflexivity].
      destruct (Z.ltb_spec n (2 ^ 64)); [lia |]. apply andb_false_r.
    + left. exists n. split; [reflexivity |]. split; [lia |].
      split; [| reflexivity].
      destruct (Z.leb_spec 0 n); [| lia].
      destruct (Z.ltb_spec n (2 ^ 64)); [reflexivity | lia].
Qed.

(** The loop on arbitrary items: every cell from [i] on is written, the
    pointer cell with the address of its own slot, the word cell with the
    converted value or with [2^64 - 1]; an exception is pending at the end
    exactly when one was pending before or some item from [i] on did not
    convert. *)
Lemma marshal_loop_any (items : list PyObject) (n : nat) :
  forall (i : nat) (b : ArgBuffers) (s : State),
    (i + n)%nat = length items ->
    length (arg_vals b) = length items ->
    length (arg_ptrs b) = length items ->
    exists b' s',
      marshal_loop n i items b s = (Ret b', s', []) /\
      length (arg_vals b') = length items /\
      length (arg_ptrs b') = length items /\
      cuLaunchKernelExHandle s' = cuLaunchKernelExHandle s /\
      (forall j : nat, (j < i)%nat ->
         arg_vals b' !! j = arg_vals b !! j /\
         arg_ptrs b' !! j = arg_ptrs b !! j) /\
      (forall (j : nat) (item : PyObject),
         (i <= j)%nat -> items !! j = Some item ->
         arg_ptrs b' !! j = Some (Some j) /\
         ((exists v, item = PyLong v /\ convertible item = true /\
                     arg_vals b' !! j = Some (Some v)) \/
          (convertible item = false /\
           arg_vals b' !! j = Some (Some (2 ^ 64 - 1))))) /\
      (forallb convertible (drop i items) = true -> s' = s) /\
      (err_indicator s <> None -> err_indicator s' <> None) /\
      (forallb convertible (drop i items) = false ->
       err_indicator s' <> None).
Proof.
  induction n as [| n IH]; intros i b s Hlen Hv Hp.
  - exists b, s. cbn. split; [reflexivity |].
    split; [exact Hv |]. split; [exact Hp |]. split; [reflexivity |].
    split; [auto |]. split.
    { intros j item Hj Hjv. apply lookup_lt_Some in Hjv. lia. }
    split; [reflexivity |]. split; [auto |].
    rewrite drop_ge by lia. discriminate.
  - assert (i < length items)%nat as Hi by lia.
    destruct (lookup_lt_is_Some_2 items i Hi) as [it Hit].
    cbn [marshal_loop]. unfold PyTuple_GetItem. rewrite Hit.
    rewrite (drop_S items it i Hit). cbn [forallb].
    assert (exists w s1,
              PyLong_AsUnsignedLongLong (Some it) s = (Ret w, s1, []) /\
              cuLaunchKernelExHandle s1 = cuLaunchKernelExHandle s /\
              ((exists v, it = PyLong v /\ convertible it = true /\
                          w = v /\ s1 = s) \/
               (convertible it = false /\ w = 2 ^ 64 - 1 /\
                err_indicator s1 <> None)))
      as (w & s1 & Hc & Hh1 & Hcase).
    { destruct (PyLong_AsUnsignedLongLong_cases it s)
        as [(v & -> & _ & Hcv & Hr) | (e & Hcv & Hr)].
      - exists v, s. split; [exact Hr |]. split; [reflexivity |].
        left. exists v. auto.
      - eexists _, _. split; [exact Hr |]. split; [reflexivity |].
        right. split; [exact Hcv |]. split; [reflexivity |]. discriminate. }
    unfold bind at 1. rewrite Hc. cbn [arg_vals arg_ptrs].
    destruct (IH (S i)
                (mkBuffers (<[i := Some w]> (arg_vals b))
                           (<[i := Some i]> (arg_ptrs b))) s1)
      as (b' & s' & Hrun & Hv' & Hp' & Hh' & Hkeep & Hnew & Hsame & Hpend
          & Hbad).
    { lia. }
    { cbn. rewrite length_insert. exact Hv. }
    { cbn. rewrite length_insert. exact Hp. }
    exists b', s'. rewrite Hrun. cbn [app]. split; [reflexivity |].
    split; [exact Hv' |]. split; [exact Hp' |]. split; [congruence |].
    split; [| split; [| split; [| split]]].
    + intros j Hj. destruct (Hkeep j ltac:(lia)) as [-> ->]. cbn.
      rewrite !list_lookup_insert_ne by lia. auto.
    + intros j item Hj Hjv.
      destruct (decide (j = i)) as [-> | Hne].
      * destruct (Hkeep i ltac:(lia)) as [-> ->]. cbn.
        rewrite !list_lookup_insert_eq by lia.
        rewrite Hit in Hjv. injection Hjv as <-.
        split; [reflexivity |].
        destruct Hcase as [(v & -> & Hcv & -> & _) | (Hcv & -> & _)].
        -- left. exists v. auto.
        -- right. auto.
      * apply Hnew; [lia | exact Hjv].
    + intros Hall. apply andb_prop in Hall as [Hcv Hrest].
      destruct Hcase as [(v & _ & _ & _ & ->) | (Hcv' & _)].
      * apply Hsame. exact Hrest.
      * congruence.
    + intros Hs. apply Hpend.
      destruct Hcase as [(v & _ & _ & _ & ->) | (_ & _ & Hset)]; assumption.
    + intros Hsome. apply andb_false_iff in Hsome as [Hcv | Hrest].
      * apply Hpend.
        destruct Hcase as [(v & _ & Hcv' & _) | (_ & _ & Hset)];
          [congruence | exact Hset].
      * apply Hbad. exact Hrest.
Qed.

Lemma marshal_any (items : list PyObject) (s : State) :
  exists b s',
    marshal items s = (Ret b, s', []) /\
    length (arg_vals b) = length items /\
    length (arg_ptrs b) = length items /\
    cuLaunchKernelExHandle s' = cuLaunchKernelExHandle s /\
    (forall (j : nat) (item : PyObject),
       items !! j = Some item ->
       arg_ptrs b !! j = Some (Some j) /\
       ((exists v, item = PyLong v /\ convertible item = true /\
                   arg_vals b !! j = Some (Some v)) \/
        (convertible item = false /\
         arg_vals b !! j = Some (Some (2 ^ 64 - 1))))) /\
    (forallb convertible items = true -> s' = s) /\
    (err_indicator s <> None -> err_indicator s' <> None) /\
    (forallb convertible items = false -> err_indicator s' <> None).
Proof.
  unfold marshal, PyTuple_Size, malloc_buffers.
  destruct (marshal_loop_any items (length items) 0%nat
              (mkBuffers (replicate (length items) None)
                         (replicate (length items) None)) s)
    as (b & s' & Hrun & Hv & Hp & Hh & _ & Hnew & Hsame & Hpend & Hbad).
  { reflexivity. }
  { cbn. apply length_replicate. }
  { cbn. apply length_replicate. }
  exists b, s'. rewrite drop_0 in Hsame, Hbad.
  split; [exact Hrun |]. split; [exact Hv |]. split; [exact Hp |].
  split; [exact Hh |]. split; [| auto].
  intros j item Hj. apply Hnew; [lia | exact Hj].
Qed.

(** Whatever the argument tuple holds, marshalling returns buffers of the
    tuple's length in which no cell is left unwritten: entry [i] of the
    pointer array is the address of slot [i], and dereferencing it yields
    the item itself when it is an integer in the range of [uint64_t] and
    [2^64 - 1] otherwise.  Marshalling calls nothing outside the file and
    leaves the cached handle alone. *)
Theorem marshal_writes_every_slot (items : list PyObject) (s : State) :
  exists b s',
    marshal items s = (Ret b, s', []) /\
    length (arg_vals b) = length items /\
    length (arg_ptrs b) = length items /\
    cuLaunchKernelExHandle s' = cuLaunchKernelExHandle s /\
    (forall i : nat, (i < length items)%nat ->
       arg_ptrs b !! i = Some (Some i) /\ is_Some (deref b i)) /\
    (forall (i : nat) (v : Z),
       items !! i = Some (PyLong v) -> 0 <= v < 2 ^ 64 ->
       deref b i = Some v) /\
    (forall (i : nat) (item : PyObject),
       items !! i = Some item -> convertible item = false ->
       deref b i = Some (2 ^ 64 - 1)).
Proof.
  destruct (marshal_any items s)
    as (b & s' & Hrun & Hv & Hp & Hh & Hslot & _).
  exists b, s'. split; [exact Hrun |]. split; [exact Hv |].
  split; [exact Hp |]. split; [exact Hh |]. split; [| split].
  - intros i Hi. destruct (lookup_lt_is_Some_2 items i Hi) as [item Hit].
    destruct (Hslot i item Hit) as [Hptr Hval]. split; [exact Hptr |].
    unfold deref. rewrite Hptr.
    destruct Hval as [(v & _ & _ & ->) | (_ & ->)]; eauto.
  - intros i v Hit Hrange.
    destruct (Hslot i _ Hit) as [Hptr Hval].
    unfold deref. rewrite Hptr.
    destruct Hval as [(v' & Heq & _ & ->) | (Hcv & _)].
    + injection Heq as ->. reflexivity.
    + cbn in Hcv.
      destruct (Z.leb_spec 0 v); [| lia].
      destruct (Z.ltb_spec v (2 ^ 64)); [discriminate | lia].
  - intros i item Hit Hcv.
    destruct (Hslot i _ Hit) as [Hptr Hval].
    unfold deref. rewrite Hptr.
    destruct Hval as [(v' & _ & Hcv' & _) | (_ & ->)];
      [congruence | reflexivity].
Qed.

(** After marshalling an exception is pending exactly when one was
    pending before or some item of the tuple is not an integer in the
    range of [uint64_t]; when every item converts the state is the one
    marshalling started from. *)
Theorem marshal_exception_iff (items : list PyObject) (s : State) :
  (err_indicator (state_of (marshal items s)) <> None <->
   err_indicator s <> None \/ forallb convertible items = false) /\
  (forallb convertible items = true -> state_of (marshal items s) = s).
Proof.
  destruct (marshal_any items s)
    as (b & s' & Hrun & _ & _ & _ & _ & Hsame & Hpend & Hbad).
  rewrite Hrun. cbn [state_of fst snd]. split.
  - split.
    + intros Hs'. destruct (forallb convertible items) eqn:Hall.
      * left. rewrite <- (Hsame eq_refl). exact Hs'.
      * right. reflexivity.
    + intros [Hs | Hall]; [exact (Hpend Hs) | exact (Hbad Hall)].
  - exact Hsame.
Qed.

(** ** The resolver and the loader *)


(** The handle [_launch] calls through, from the cache and the loader. *)
Lemma handle_in_cases (env : Env) (s : State) :
  (cuLaunchKernelExHandle s <> NULL ->
   handle_in env s = cuLaunchKernelExHandle s) /\
  (cuLaunchKernelExHandle s = NULL ->
   handle_in env s
   = if dlopen env "libcuda.so" =? NULL then NULL
     else match dlsym env (dlopen env "libcuda.so") "cuLaunchKernelEx" with
          | (_, Some _) => NULL
          | (p, None) => p
          end).
Proof.
  split; intros Hc.
  - unfold handle_in. rewrite resolve_cached by exact Hc. reflexivity.
  - unfold handle_in, outcome_of. unfold_monad. rewrite Hc. cbn.
    destruct (dlopen env "libcuda.so" =? NULL); cbn; [reflexivity |].
    destruct (dlsym env _ _) as [p [e |]]; reflexivity.
Qed.

Lemma resolve_uncached (env : Env) (s : State) :
  cuLaunchKernelExHandle s = NULL ->
  exists h s' t,
    resolves_to env s h s' (EvDlopen "libcuda.so" :: t).
Proof.
  intros Hc. unfold resolves_to. unfold_monad. rewrite Hc. cbn.
  destruct (dlopen env "libcuda.so" =? NULL); cbn.
  - exists NULL. eexists _, _. right. split; reflexivity.
  - destruct (dlsym env _ _) as [p [e |]]; cbn.
    + exists NULL. eexists _, _. right. split; reflexivity.
    + eexists _, _, _. left. reflexivity.
Qed.

(** [_launch] calls the loader exactly when it is on the cluster path
    (positive grid product, [num_ctas <> 1]) with an empty cache: the
    simple path, a skipped launch and a cluster launch with a cached
    handle never open the library. *)
Theorem loader_consulted_iff (env : Env) (s : State)
    (gridX gridY gridZ num_warps num_ctas cX cY cZ shmem stream f : Z)
    (params : ArgBuffers) :
  existsb is_loader_call
    (trace_of (_launch env gridX gridY gridZ num_warps num_ctas cX cY cZ
                 shmem stream f params s)) = true
  <-> 0 < grid_product gridX gridY gridZ /\ num_ctas <> 1 /\
      cuLaunchKernelExHandle s = NULL.
Proof.
  destruct (Z.lt_ge_cases 0 (grid_product gridX gridY gridZ)) as [Hp | Hp].
  - destruct (Z.eq_dec num_ctas 1) as [-> | Hn].
    + rewrite _launch_simple_path by exact Hp. cbn.
      unfold check_events. destruct (_ =? CUDA_SUCCESS); cbn;
        (split; [discriminate | intros (_ & H & _); contradiction]).
    + destruct (Z.eq_dec (cuLaunchKernelExHandle s) NULL) as [Hc | Hc].
      * destruct (resolve_uncached env s Hc) as (h & s' & t & Hr).
        rewrite (_launch_cluster_path env s s' _ _ _ _ _ _ _ _ _ _ _ _ _ _
                   Hp Hn Hr).
        split; [auto |]. intros _.
        destruct (h =? NULL); reflexivity.
      * rewrite (_launch_cluster_path env s s [] _ _ _ _ _ _ _ _ _ _ _ _ _
                   Hp Hn (or_introl (resolve_cached env s Hc))).
        destruct (Z.eqb_spec (cuLaunchKernelExHandle s) NULL);
          [contradiction |].
        cbn. unfold check_events. destruct (_ =? CUDA_SUCCESS); cbn;
          (split; [discriminate | intros (_ & _ & H); contradiction]).
  - rewrite _launch_skipped by exact Hp. cbn.
    split; [discriminate | intros (H & _); lia].
Qed.

(** [_launch] fails to return exactly when it is on the cluster path and
    the handle it ends up with is null: the cache is empty and the
    library does not open, or [dlsym] reports an error, or [dlsym] yields
    a null pointer.  In every other case it returns. *)
Theorem _launch_traps_iff (env : Env) (s : State)
    (gridX gridY gridZ num_warps num_ctas cX cY cZ shmem stream f : Z)
    (params : ArgBuffers) :
  (outcome_of (_launch env gridX gridY gridZ num_warps num_ctas cX cY cZ
                 shmem stream f params s) = Trap
   <-> 0 < grid_product gridX gridY gridZ /\ num_ctas <> 1 /\
       cuLaunchKernelExHandle s = NULL /\
       (dlopen env "libcuda.so" = NULL \/
        snd (dlsym env (dlopen env "libcuda.so") "cuLaunchKernelEx") <> None \/
        fst (dlsym env (dlopen env "libcuda.so") "cuLaunchKernelEx") = NULL))
  /\
  (outcome_of (_launch env gridX gridY gridZ num_warps num_ctas cX cY cZ
                 shmem stream f params s) <> Trap ->
   outcome_of (_launch env gridX gridY gridZ num_warps num_ctas cX cY cZ
                 shmem stream f params s) = Ret tt).
Proof.
  split.
  - destruct (Z.lt_ge_cases 0 (grid_product gridX gridY gridZ)) as [Hp | Hp].
    + destruct (Z.eq_dec num_ctas 1) as [-> | Hn].
      * rewrite _launch_simple_path by exact Hp. cbn.
        split; [discriminate | intros (_ & H & _); contradiction].
      * destruct (resolve_shape env s) as (s' & t & Hr & _ & _).
        rewrite (_launch_cluster_path env s s' t _ _ _ _ _ _ _ _ _ _ _ _ _
                   Hp Hn Hr).
        destruct (handle_in_cases env s) as [Hcached Hempty].
        destruct (Z.eq_dec (cuLaunchKernelExHandle s) NULL) as [Hc | Hc].
        -- rewrite (Hempty Hc).
           destruct (Z.eqb_spec (dlopen env "libcuda.so") NULL) as [Ho | Ho].
           ++ cbn. split; auto.
           ++ destruct (dlsym env (dlopen env "libcuda.so")
                          "cuLaunchKernelEx") as [p [e |]]; cbn.
              ** split; [intros _ | reflexivity].
                 split; [exact Hp |]. split; [exact Hn |].
                 split; [exact Hc |]. right. left. discriminate.
              ** destruct (Z.eqb_spec p NULL) as [Hz | Hz]; cbn.
                 --- split; auto 6.
                 --- split; [discriminate |].
                     intros (_ & _ & _ & [H | [H | H]]); congruence.
        -- rewrite (Hcached Hc).
           destruct (Z.eqb_spec (cuLaunchKernelExHandle s) NULL);
             [contradiction |].
           cbn. split; [discriminate | intros (_ & _ & H & _); contradiction].
    + rewrite _launch_skipped by exact Hp. cbn.
      split; [discriminate | intros (H & _); lia].
  - destruct (_launch env gridX gridY gridZ num_warps num_ctas cX cY cZ
                shmem stream f params s) as [[[[] |] s'] t]; cbn; congruence.
Qed.

(** ** The entry point as a whole *)

Lemma hook_ok_cases (hook : PyObject) (s : State) :
  (hook_passes hook = true /\
   hook_ok hook s = (Ret true, s, hook_events hook)) \/
  (hook_passes hook = false /\
   exists e,
     hook_ok hook s
     = (Ret false, mkState (Some e) (cuLaunchKernelExHandle s),
        [EvCallObject hook])).
Proof.
  destruct hook as [| n | items | [e |] |]; cbn; unfold_monad; cbn;
    try (left; split; reflexivity);
    right; (split; [reflexivity |]); eexists; reflexivity.
Qed.

Lemma PyArg_ParseTuple_cases (a : LaunchArgs) (s : State) :
  (exists p, PyArg_ParseTuple a s = (Ret (Some p), s, [])) \/
  (exists e, PyArg_ParseTuple a s
             = (Ret None, mkState (Some e) (cuLaunchKernelExHandle s), [])).
Proof.
  unfold PyArg_ParseTuple.
  destruct (forallb in_int (ints_of a)).
  - destruct (a_args_obj a);
      try (right; unfold_monad; cbn; eexists; reflexivity).
    left. eauto.
  - right. unfold_monad. cbn. eexists. reflexivity.
Qed.

Lemma marshal_and_launch_run (env : Env) (p : Parsed) (s s1 : State)
    (b : ArgBuffers) :
  marshal (args_obj p) s = (Ret b, s1, []) ->
  marshal_and_launch env p s
  = _launch env (gridX p) (gridY p) (gridZ p) (num_warps p) (num_ctas p)
      (p_clusterDimX p) (p_clusterDimY p) (p_clusterDimZ p)
      (shared_memory p) (_stream p) (_function p) b s1.
Proof.
  intros Hm. unfold marshal_and_launch. unfold bind. rewrite Hm.
  destruct (_launch env _ _ _ _ _ _ _ _ _ _ _ b s1) as [[o s2] t2].
  reflexivity.
Qed.

Lemma after_check_keeps_exception (env : Env) (code : Z) (s : State) :
  err_indicator s <> None -> err_indicator (after_check env code s) <> None.
Proof.
  intros H. unfold after_check.
  destruct (code =? CUDA_SUCCESS); [exact H | discriminate].
Qed.

Lemma resolve_keeps_exception (env : Env) (s s' : State) (h : Z)
    (t : list Event) :
  resolves_to env s h s' t ->
  err_indicator s <> None -> err_indicator s' <> None.
Proof.
  unfold resolves_to. unfold_monad.
  destruct (cuLaunchKernelExHandle s =? NULL); cbn.
  - destruct (dlopen env "libcuda.so" =? NULL); cbn.
    + intros [H | [_ H]] Hs; [discriminate |].
      injection H as <- _. exact Hs.
    + destruct (dlsym env _ _) as [ptr [msg |]]; cbn;
        intros [H | [_ H]] Hs; try discriminate;
        injection H as _ <- _ || injection H as <- _; exact Hs.
  - intros [H | [_ H]] Hs; [| discriminate].
    injection H as _ <- _. exact Hs.
Qed.

Lemma _launch_keeps_exception (env : Env) (s : State)
    (gridX gridY gridZ num_warps num_ctas cX cY cZ shmem stream f : Z)
    (params : ArgBuffers) :
  err_indicator s <> None ->
  err_indicator
    (state_of (_launch env gridX gridY gridZ num_warps num_ctas cX cY cZ
                 shmem stream f params s)) <> None.
Proof.
  intros Hs.
  destruct (Z.lt_ge_cases 0 (grid_product gridX gridY gridZ)) as [Hp | Hp].
  - destruct (Z.eq_dec num_ctas 1) as [-> | Hn].
    + rewrite _launch_simple_path by exact Hp.
      apply after_check_keeps_exception. exact Hs.
    + destruct (resolve_shape env s) as (s' & t & Hr & _ & _).
      rewrite (_launch_cluster_path env s s' t _ _ _ _ _ _ _ _ _ _ _ _ _
                 Hp Hn Hr).
      pose proof (resolve_keeps_exception env s s' _ t Hr Hs) as Hs'.
      destruct (handle_in env s =? NULL); cbn [state_of fst snd].
      * exact Hs'.
      * apply after_check_keeps_exception. exact Hs'.
  - rewrite _launch_skipped by exact Hp. exact Hs.
Qed.

Lemma marshal_and_launch_keeps_exception (env : Env) (p : Parsed)
    (s : State) :
  err_indicator s <> None ->
  err_indicator (state_of (marshal_and_launch env p s)) <> None.
Proof.
  intros Hs.
  destruct (marshal_any (args_obj p) s)
    as (b & s1 & Hm & _ & _ & _ & _ & _ & Hpend & _).
  rewrite (marshal_and_launch_run env p s s1 b Hm).
  apply _launch_keeps_exception. exact (Hpend Hs).
Qed.

(** [launch] keeps CPython's return convention: whenever it returns, the
    result is [NULL] exactly when an exception is pending. *)
Theorem launch_null_iff_exception (env : Env) (a : LaunchArgs)
    (s s' : State) (r : PyResult) (t : list Event) :
  launch env a s = (Ret r, s', t) ->
  (r = Returned_NULL <-> err_indicator s' <> None).
Proof.
  destruct (PyArg_ParseTuple_cases a s) as [[p Hp] | [e Hp]].
  - destruct (hook_ok_cases (launch_enter_hook p) s)
      as [[_ H1] | [_ [e H1]]].
    + rewrite (launch_run env a p s s true _ Hp H1).
      destruct (marshal_and_launch env p s) as [[[[] |] s2] t2];
        [| discriminate].
      destruct (err_indicator s2) as [e2 |] eqn:He2.
      * intros H. injection H as <- <- _. rewrite He2.
        split; [discriminate | reflexivity].
      * destruct (hook_ok_cases (launch_exit_hook p) s2)
          as [[_ H3] | [_ [e H3]]]; rewrite H3;
          intros H; injection H as <- <- _.
        -- rewrite He2. split; [discriminate | congruence].
        -- cbn. split; [discriminate | reflexivity].
    + rewrite (launch_run env a p s _ false _ Hp H1).
      intros H. injection H as <- <- _. cbn.
      split; [discriminate | reflexivity].
  - unfold launch. unfold bind at 1. rewrite Hp. cbn.
    intros H. injection H as <- <- _. cbn.
    split; [discriminate | reflexivity].
Qed.

Lemma launch_null_iff_exception_witness :
  launch env_ok args_mixed s_init
  = (Ret Returned_NULL,
     mkState (Some (mkPyErr PyExc_TypeError "an integer is required")) NULL,
     [EvLaunchKernel
        (mkCall 7 1 1 1 128 1 1 0 0
           (mkBuffers [Some 5; Some (2 ^ 64 - 1); Some (2 ^ 64 - 1)]
                      [Some 0%nat; Some 1%nat; Some 2%nat]) 0)]) /\
  (Returned_NULL = Returned_NULL <->
   err_indicator
     (mkState (Some (mkPyErr PyExc_TypeError "an integer is required")) NULL)
   <> None).
Proof.
  assert (launch env_ok args_mixed s_init
          = (Ret Returned_NULL,
             mkState (Some (mkPyErr PyExc_TypeError "an integer is required"))
               NULL,
             [EvLaunchKernel
                (mkCall 7 1 1 1 128 1 1 0 0
                   (mkBuffers [Some 5; Some (2 ^ 64 - 1); Some (2 ^ 64 - 1)]
                              [Some 0%nat; Some 1%nat; Some 2%nat]) 0)]))
    as Hrun by reflexivity.
  split; [exact Hrun |].
  exact (launch_null_iff_exception env_ok args_mixed s_init _ _ _ Hrun).
Defined.

(** [launch] never clears an exception: when one is pending on entry it
    does not return [None], and an exception is still pending when it
    ends. *)
Theorem launch_with_pending_exception (env : Env) (a : LaunchArgs)
    (s : State) :
  err_indicator s <> None ->
  outcome_of (launch env a s) <> Ret Returned_None /\
  err_indicator (state_of (launch env a s)) <> None.
Proof.
  intros Hs.
  destruct (PyArg_ParseTuple_cases a s) as [[p Hp] | [e Hp]].
  - destruct (hook_ok_cases (launch_enter_hook p) s)
      as [[_ H1] | [_ [e H1]]].
    + rewrite (launch_run env a p s s true _ Hp H1).
      pose proof (marshal_and_launch_keeps_exception env p s Hs) as Hk.
      destruct (marshal_and_launch env p s) as [[[[] |] s2] t2];
        cbn [state_of fst snd] in Hk.
      * destruct (err_indicator s2) as [e2 |] eqn:He2; [| contradiction].
        cbn. rewrite He2. split; discriminate.
      * cbn. split; [discriminate | exact Hk].
    + rewrite (launch_run env a p s _ false _ Hp H1).
      cbn. split; discriminate.
  - assert (launch env a s
            = (Ret Returned_NULL,
               mkState (Some e) (cuLaunchKernelExHandle s), [])) as ->.
    { unfold launch. unfold bind at 1. rewrite Hp. reflexivity. }
    cbn. split; discriminate.
Qed.

Lemma launch_with_pending_exception_witness :
  err_indicator (mkState (Some (mkPyErr PyExc_Exception "earlier")) NULL)
  <> None /\
  outcome_of
    (launch env_ok (args_unit_grid 1 [])
       (mkState (Some (mkPyErr PyExc_Exception "earlier")) NULL))
  <> Ret Returned_None.
Proof.
  assert (err_indicator
            (mkState (Some (mkPyErr PyExc_Exception "earlier")) NULL)
          <> None) as Hs by discriminate.
  split; [exact Hs |].
  exact (proj1 (launch_with_pending_exception env_ok (args_unit_grid 1 [])
                  _ Hs)).
Defined.

(** When an integer argument does not fit in an [int], or the last
    argument is not a tuple, [launch] returns [NULL] with [OverflowError]
    or [TypeError] pending and has done nothing else: no hook was called,
    nothing was launched, the cached handle is as before. *)
Theorem launch_rejects_unparsable_arguments (env : Env) (a : LaunchArgs)
    (s : State) :
  forallb in_int (ints_of a) = false \/
  (forall items, a_args_obj a <> PyTuple items) ->
  exists e,
    launch env a s
    = (Ret Returned_NULL, mkState (Some e) (cuLaunchKernelExHandle s), []) /\
    exc_type e
    = if forallb in_int (ints_of a) then PyExc_TypeError
      else PyExc_OverflowError.
Proof.
  intros H.
  assert (exists e,
            PyArg_ParseTuple a s
            = (Ret None, mkState (Some e) (cuLaunchKernelExHandle s), []) /\
            exc_type e
            = if forallb in_int (ints_of a) then PyExc_TypeError
              else PyExc_OverflowError) as (e & Hp & He).
  { unfold PyArg_ParseTuple.
    destruct (forallb in_int (ints_of a)).
    - destruct H as [H | H]; [discriminate |].
      destruct (a_args_obj a) as [| n | items | r |];
        try (unfold_monad; cbn; eexists; split; reflexivity).
      exfalso. exact (H items eq_refl).
    - unfold_monad. cbn. eexists. split; reflexivity. }
  exists e. split; [| exact He].
  unfold launch. unfold bind at 1. rewrite Hp. reflexivity.
Qed.

Lemma launch_rejects_unparsable_arguments_witness :
  (forallb in_int (ints_of args_wide_grid) = false \/
   (forall items, a_args_obj args_wide_grid <> PyTuple items)) /\
  exists e,
    launch env_ok args_wide_grid s_init
    = (Ret Returned_NULL, mkState (Some e) NULL, []) /\
    exc_type e = PyExc_OverflowError.
Proof.
  assert (forallb in_int (ints_of args_wide_grid) = false \/
          (forall items, a_args_obj args_wide_grid <> PyTuple items)) as H
    by (left; reflexivity).
  split; [exact H |].
  exact (launch_rejects_unparsable_arguments env_ok args_wide_grid s_init H).
Defined.

Lemma resolve_ok (env : Env) (s : State) :
  handle_in env s <> NULL ->
  exists t,
    resolve_cuLaunchKernelExHandle env s
    = (Ret (handle_in env s),
       mkState (err_indicator s) (handle_in env s), t) /\
    forallb is_loader_call t = true.
Proof.
  unfold handle_in, outcome_of. unfold_monad.
  destruct (Z.eqb_spec (cuLaunchKernelExHandle s) NULL) as [Hc | Hc]; cbn.
  - destruct (dlopen env "libcuda.so" =? NULL); cbn.
    + intros H. contradiction.
    + destruct (dlsym env _ _) as [ptr [msg |]]; cbn.
      * intros H. contradiction.
      * intros _. eexists. split; reflexivity.
  - intros _. exists []. split; [destruct s; reflexivity | reflexivity].
Qed.

Lemma handle_in_ext (env : Env) (s1 s2 : State) :
  cuLaunchKernelExHandle s1 = cuLaunchKernelExHandle s2 ->
  handle_in env s1 = handle_in env s2.
Proof.
  intros H.
  destruct (handle_in_cases env s1) as [Hc1 He1].
  destruct (handle_in_cases env s2) as [Hc2 He2].
  destruct (Z.eq_dec (cuLaunchKernelExHandle s1) NULL) as [Hz | Hz].
  - rewrite He1, He2 by congruence. reflexivity.
  - rewrite Hc1, Hc2 by congruence. exact H.
Qed.

Lemma after_check_failure (env : Env) (code : Z) (s : State) :
  code <> CUDA_SUCCESS ->
  after_check env code s
  = mkState (Some (launch_failure env code)) (cuLaunchKernelExHandle s) /\
  check_events code = [EvGetErrorString code].
Proof.
  intros H. unfold after_check, check_events.
  destruct (Z.eqb_spec code CUDA_SUCCESS); [contradiction |].
  split; reflexivity.
Qed.

Lemma marshalled_eq (items : list PyObject) (s s1 : State)
    (b : ArgBuffers) :
  marshal items s = (Ret b, s1, []) -> marshalled items s = b.
Proof. intros H. unfold marshalled. rewrite H. reflexivity. Qed.

(** A launch the driver refuses.  After a successful parse and enter
    hook, on a positive grid, when the driver answers the launch that is
    issued (the one carrying the marshalled buffers) with a status other
    than [CUDA_SUCCESS], [launch] returns [NULL]; the pending exception is
    [RuntimeError] with the driver's text behind the prefix
    ["Triton Error [CUDA]: "], whatever was pending before (a conversion
    failure included); the error text is looked up once, right after the
    launch; and the exit hook is not called. *)
Theorem launch_reports_driver_failure (env : Env) (a : LaunchArgs)
    (p : Parsed) (s : State) (code : Z) :
  PyArg_ParseTuple a s = (Ret (Some p), s, []) ->
  hook_passes (launch_enter_hook p) = true ->
  0 < grid_product (gridX p) (gridY p) (gridZ p) ->
  code <> CUDA_SUCCESS ->
  (num_ctas p = 1 ->
   cuLaunchKernel env
     (simple_call (gridX p) (gridY p) (gridZ p) (num_warps p)
        (shared_memory p) (_stream p) (_function p)
        (marshalled (args_obj p) s)) = code ->
   launch env a s
   = (Ret Returned_NULL,
      mkState (Some (launch_failure env code)) (cuLaunchKernelExHandle s),
      hook_events (launch_enter_hook p)
      ++ [EvLaunchKernel
            (simple_call (gridX p) (gridY p) (gridZ p) (num_warps p)
               (shared_memory p) (_stream p) (_function p)
               (marshalled (args_obj p) s));
          EvGetErrorString code])) /\
  (num_ctas p <> 1 ->
   handle_in env s <> NULL ->
   cuLaunchKernelEx env
     (mkExCall (handle_in env s)
        (cluster_config (gridX p) (gridY p) (gridZ p) (num_warps p)
           (p_clusterDimX p) (p_clusterDimY p) (p_clusterDimZ p)
           (shared_memory p) (_stream p))
        (_function p) (marshalled (args_obj p) s) 0) = code ->
   exists t,
     launch env a s
     = (Ret Returned_NULL,
        mkState (Some (launch_failure env code)) (handle_in env s),
        hook_events (launch_enter_hook p) ++ t
        ++ [EvLaunchKernelEx
              (mkExCall (handle_in env s)
                 (cluster_config (gridX p) (gridY p) (gridZ p) (num_warps p)
                    (p_clusterDimX p) (p_clusterDimY p) (p_clusterDimZ p)
                    (shared_memory p) (_stream p))
                 (_function p) (marshalled (args_obj p) s) 0);
            EvGetErrorString code]) /\
     forallb is_loader_call t = true).
Proof.
  intros Hp Hhook Hgp Hcode.
  destruct (hook_ok_cases (launch_enter_hook p) s)
    as [[_ H1] | [Hno _]]; [| congruence].
  destruct (marshal_any (args_obj p) s)
    as (b & s1 & Hm & _ & _ & Hh & _).
  pose proof (marshal_and_launch_run env p s s1 b Hm) as Hrun.
  rewrite (marshalled_eq _ _ _ _ Hm).
  split.
  - intros Hn Hdrv.
    rewrite (launch_run env a p s s true _ Hp H1), Hrun, Hn.
    rewrite _launch_simple_path by exact Hgp.
    rewrite Hdrv.
    destruct (after_check_failure env code s1 Hcode) as [-> ->].
    cbn [err_indicator]. rewrite Hh. reflexivity.
  - intros Hn Hnz Hdrv.
    rewrite (handle_in_ext env s s1) in * by congruence.
    destruct (resolve_ok env s1 Hnz) as (t & Hr & Ht).
    exists t. split; [| exact Ht].
    rewrite (launch_run env a p s s true _ Hp H1), Hrun.
    rewrite (_launch_cluster_path env s1 _ t _ _ _ _ _ _ _ _ _ _ _ _ _
               Hgp Hn (or_introl Hr)).
    destruct (Z.eqb_spec (handle_in env s1) NULL); [contradiction |].
    cbv zeta. rewrite Hdrv.
    destruct (after_check_failure env code
                (mkState (err_indicator s1) (handle_in env s1)) Hcode)
      as [-> ->].
    cbn [err_indicator cuLaunchKernelExHandle]. reflexivity.
Qed.

Lemma launch_reports_driver_failure_witness :
  (PyArg_ParseTuple (args_two_words 1) s_init
   = (Ret (Some (parsed_two_words 1)), s_init, []) /\
   hook_passes (launch_enter_hook (parsed_two_words 1)) = true /\
   0 < grid_product 2 2 1 /\ 719 <> CUDA_SUCCESS) /\
  launch env_launch_fails (args_two_words 1) s_init
  = (Ret Returned_NULL,
     mkState (Some (launch_failure env_launch_fails 719)) NULL,
     [EvCallObject hook_returns;
      EvLaunchKernel
        (mkCall 7 2 2 1 256 1 1 1024 3
           (mkBuffers [Some 5; Some 1000000000000] [Some 0%nat; Some 1%nat])
           0);
      EvGetErrorString 719]).
Proof.
  assert (PyArg_ParseTuple (args_two_words 1) s_init
          = (Ret (Some (parsed_two_words 1)), s_init, [])) as Hp
    by reflexivity.
  assert (719 <> CUDA_SUCCESS) as Hc by discriminate.
  split;
    [split; [exact Hp | split; [reflexivity | split; [reflexivity | exact Hc]]]
    |].
  exact (proj1 (launch_reports_driver_failure env_launch_fails
                  (args_two_words 1) (parsed_two_words 1) s_init 719
                  Hp eq_refl eq_refl Hc)
           eq_refl eq_refl).
Defined.

Lemma marshal_in_range (values : list Z) (s : State) :
  Forall (fun v => 0 <= v < 2 ^ 64) values ->
  exists b,
    marshal (PyLong <$> values) s = (Ret b, s, []) /\
    (forall (i : nat) (v : Z), values !! i = Some v -> deref b i = Some v).
Proof.
  intros Hall. unfold marshal, PyTuple_Size, malloc_buffers.
  rewrite length_fmap.
  destruct (marshal_loop_in_range values s (length values) Hall 0%nat
              (mkBuffers (replicate (length values) None)
                         (replicate (length values) None)))
    as (b & Hrun & _ & _ & _ & Hnew).
  { reflexivity. }
  { cbn. apply length_replicate. }
  { cbn. apply length_replicate. }
  exists b. split; [exact Hrun |].
  intros i v Hi. destruct (Hnew i v ltac:(lia) Hi) as [Hval Hptr].
  unfold deref. rewrite Hptr, Hval. reflexivity.
Qed.

Lemma after_check_success (env : Env) (s : State) :
  after_check env CUDA_SUCCESS s = s /\ check_events CUDA_SUCCESS = [].
Proof. split; reflexivity. Qed.

(** From the Python arguments to the driver call.  After a successful
    parse, with no exception pending, hooks that are [None] or return
    normally, integer arguments in the range of [uint64_t] and a positive
    grid, when the driver accepts the launch that is issued (the one
    carrying the marshalled buffers), [launch] returns [None] with no
    exception pending.  The trace is the enter hook, the launch, the exit
    hook (on the cluster path the loader calls come before the launch);
    through the buffers the driver receives, argument [i] reads as
    element [i] of the tuple; on the simple path the state is unchanged,
    on the cluster path only the cached handle is filled. *)
Theorem launch_succeeds (env : Env) (a : LaunchArgs) (p : Parsed)
    (s : State) (values : list Z) :
  PyArg_ParseTuple a s = (Ret (Some p), s, []) ->
  err_indicator s = None ->
  hook_passes (launch_enter_hook p) = true ->
  hook_passes (launch_exit_hook p) = true ->
  args_obj p = PyLong <$> values ->
  Forall (fun v => 0 <= v < 2 ^ 64) values ->
  0 < grid_product (gridX p) (gridY p) (gridZ p) ->
  (forall (i : nat) (v : Z),
     values !! i = Some v -> deref (marshalled (args_obj p) s) i = Some v) /\
  (num_ctas p = 1 ->
   cuLaunchKernel env
     (simple_call (gridX p) (gridY p) (gridZ p) (num_warps p)
        (shared_memory p) (_stream p) (_function p)
        (marshalled (args_obj p) s)) = CUDA_SUCCESS ->
   launch env a s
   = (Ret Returned_None, s,
      hook_events (launch_enter_hook p)
      ++ [EvLaunchKernel
            (simple_call (gridX p) (gridY p) (gridZ p) (num_warps p)
               (shared_memory p) (_stream p) (_function p)
               (marshalled (args_obj p) s))]
      ++ hook_events (launch_exit_hook p))) /\
  (num_ctas p <> 1 ->
   handle_in env s <> NULL ->
   cuLaunchKernelEx env
     (mkExCall (handle_in env s)
        (cluster_config (gridX p) (gridY p) (gridZ p) (num_warps p)
           (p_clusterDimX p) (p_clusterDimY p) (p_clusterDimZ p)
           (shared_memory p) (_stream p))
        (_function p) (marshalled (args_obj p) s) 0) = CUDA_SUCCESS ->
   exists t,
     launch env a s
     = (Ret Returned_None, mkState None (handle_in env s),
        hook_events (launch_enter_hook p) ++ t
        ++ [EvLaunchKernelEx
              (mkExCall (handle_in env s)
                 (cluster_config (gridX p) (gridY p) (gridZ p) (num_warps p)
                    (p_clusterDimX p) (p_clusterDimY p) (p_clusterDimZ p)
                    (shared_memory p) (_stream p))
                 (_function p) (marshalled (args_obj p) s) 0)]
        ++ hook_events (launch_exit_hook p)) /\
     forallb is_loader_call t = true).
Proof.
  intros Hp Herr Henter Hexit Hargs Hall Hgp.
  destruct (hook_ok_cases (launch_enter_hook p) s)
    as [[_ H1] | [Hno _]]; [| congruence].
  destruct (marshal_in_range values s Hall) as (b & Hm & Hderef).
  rewrite <- Hargs in Hm.
  pose proof (marshal_and_launch_run env p s s b Hm) as Hrun.
  rewrite (marshalled_eq _ _ _ _ Hm).
  split; [exact Hderef |]. split.
  - intros Hn Hdrv.
    rewrite (launch_run env a p s s true _ Hp H1), Hrun, Hn.
    rewrite _launch_simple_path by exact Hgp.
    rewrite Hdrv.
    destruct (after_check_success env s) as [-> ->].
    rewrite Herr.
    destruct (hook_ok_cases (launch_exit_hook p) s)
      as [[_ H3] | [Hno _]]; [| congruence].
    rewrite H3. reflexivity.
  - intros Hn Hnz Hdrv.
    destruct (resolve_ok env s Hnz) as (t & Hr & Ht).
    exists t. split; [| exact Ht].
    rewrite (launch_run env a p s s true _ Hp H1), Hrun.
    rewrite (_launch_cluster_path env s _ t _ _ _ _ _ _ _ _ _ _ _ _ _
               Hgp Hn (or_introl Hr)).
    destruct (Z.eqb_spec (handle_in env s) NULL); [contradiction |].
    cbv zeta. rewrite Hdrv.
    destruct (after_check_success env
                (mkState (err_indicator s) (handle_in env s))) as [-> ->].
    cbn [err_indicator]. rewrite Herr.
    destruct (hook_ok_cases (launch_exit_hook p)
                (mkState None (handle_in env s)))
      as [[_ H3] | [Hno _]]; [| congruence].
    rewrite H3. rewrite <- !app_assoc. reflexivity.
Qed.

Lemma launch_succeeds_witness :
  (PyArg_ParseTuple (args_two_words 4) s_init
   = (Ret (Some (parsed_two_words 4)), s_init, []) /\
   err_indicator s_init = None /\
   args_obj (parsed_two_words 4) = PyLong <$> [5; 1000000000000] /\
   Forall (fun v => 0 <= v < 2 ^ 64) [5; 1000000000000] /\
   0 < grid_product 2 2 1) /\
  exists t,
    launch env_ok (args_two_words 4) s_init
    = (Ret Returned_None, mkState None 8192,
       [EvCallObject hook_returns] ++ t
       ++ [EvLaunchKernelEx
             (mkExCall 8192 (cluster_config 2 2 1 8 2 2 1 1024 3) 7
                (mkBuffers [Some 5; Some 1000000000000]
                           [Some 0%nat; Some 1%nat]) 0)]
       ++ [EvCallObject hook_returns]).
Proof.
  assert (PyArg_ParseTuple (args_two_words 4) s_init
          = (Ret (Some (parsed_two_words 4)), s_init, [])) as Hp
    by reflexivity.
  assert (Forall (fun v => 0 <= v < 2 ^ 64) [5; 1000000000000]) as Hall.
  { repeat constructor; lia. }
  split.
  { split; [exact Hp |]. split; [reflexivity |]. split; [reflexivity |].
    split; [exact Hall | reflexivity]. }
  destruct (proj2 (proj2 (launch_succeeds env_ok (args_two_words 4)
                            (parsed_two_words 4) s_init [5; 1000000000000]
                            Hp eq_refl eq_refl eq_refl eq_refl Hall eq_refl)))
    as (t & Hrun & _).
  { discriminate. }
  { vm_compute. discriminate. }
  { reflexivity. }
  exists t. exact Hrun.
Defined.

(** On a grid whose 32-bit product is not positive the hooks are still
    called, and they are all that is called: no launch, no loader call, no
    error-string lookup, and the cached handle is untouched.  When nothing
    else fails (no exception pending, hooks that pass, arguments that
    convert) [launch] returns [None] with the state it started from. *)
Theorem launch_on_empty_grid (env : Env) (a : LaunchArgs) (p : Parsed)
    (s : State) :
  PyArg_ParseTuple a s = (Ret (Some p), s, []) ->
  grid_product (gridX p) (gridY p) (gridZ p) <= 0 ->
  forallb is_hook_call (trace_of (launch env a s)) = true /\
  cuLaunchKernelExHandle (state_of (launch env a s))
  = cuLaunchKernelExHandle s /\
  (err_indicator s = None ->
   hook_passes (launch_enter_hook p) = true ->
   hook_passes (launch_exit_hook p) = true ->
   forallb convertible (args_obj p) = true ->
   launch env a s
   = (Ret Returned_None, s,
      hook_events (launch_enter_hook p)
      ++ hook_events (launch_exit_hook p))).
Proof.
  intros Hp Hgp.
  assert (forall s0, exists s1,
            marshal_and_launch env p s0 = (Ret tt, s1, []) /\
            cuLaunchKernelExHandle s1 = cuLaunchKernelExHandle s0 /\
            (forallb convertible (args_obj p) = true -> s1 = s0)) as Hdev.
  { intros s0.
    destruct (marshal_any (args_obj p) s0)
      as (b & s1 & Hm & _ & _ & Hh & _ & Hsame & _).
    exists s1. rewrite (marshal_and_launch_run env p s0 s1 b Hm).
    rewrite _launch_skipped by exact Hgp. auto. }
  assert (forall hook, forallb is_hook_call (hook_events hook) = true)
    as Hev by (intros []; reflexivity).
  destruct (hook_ok_cases (launch_enter_hook p) s)
    as [[Hpass1 H1] | [Hpass1 [e1 H1]]].
  - destruct (Hdev s) as (s1 & Hrun & Hh1 & Hsame).
    rewrite (launch_run env a p s s true _ Hp H1), Hrun.
    destruct (err_indicator s1) as [e |] eqn:He.
    + cbn [trace_of state_of fst snd]. rewrite app_nil_r.
      split; [apply Hev |]. split; [exact Hh1 |].
      intros Herr _ _ Hconv. rewrite (Hsame Hconv) in He. congruence.
    + destruct (hook_ok_cases (launch_exit_hook p) s1)
        as [[Hpass3 H3] | [Hpass3 [e3 H3]]]; rewrite H3;
        cbn [trace_of state_of fst snd app cuLaunchKernelExHandle].
      * rewrite forallb_app, !Hev. split; [reflexivity |].
        split; [exact Hh1 |].
        intros _ _ _ Hconv. rewrite (Hsame Hconv). reflexivity.
      * rewrite forallb_app, Hev. split; [reflexivity |].
        split; [exact Hh1 |]. intros _ _ Habs. congruence.
  - rewrite (launch_run env a p s _ false _ Hp H1).
    cbn [trace_of state_of fst snd cuLaunchKernelExHandle].
    split; [reflexivity |]. split; [reflexivity |].
    intros _ Habs. congruence.
Qed.

Lemma launch_on_empty_grid_witness :
  (PyArg_ParseTuple (mkArgs 0 2 1 8 4 2 2 1 1024 3 7 hook_returns
                       hook_returns Py_None (PyTuple [PyLong 5])) s_init
   = (Ret (Some (mkParsed 0 2 1 8 4 2 2 1 1024 3 7 hook_returns
                   hook_returns Py_None [PyLong 5])), s_init, []) /\
   grid_product 0 2 1 <= 0) /\
  launch env_old_driver
    (mkArgs 0 2 1 8 4 2 2 1 1024 3 7 hook_returns hook_returns Py_None
       (PyTuple [PyLong 5])) s_init
  = (Ret Returned_None, s_init,
     [EvCallObject hook_returns; EvCallObject hook_returns]).
Proof.
  assert (PyArg_ParseTuple (mkArgs 0 2 1 8 4 2 2 1 1024 3 7 hook_returns
                              hook_returns Py_None (PyTuple [PyLong 5]))
            s_init
          = (Ret (Some (mkParsed 0 2 1 8 4 2 2 1 1024 3 7 hook_returns
                          hook_returns Py_None [PyLong 5])), s_init, []))
    as Hp by reflexivity.
  assert (grid_product 0 2 1 <= 0) as Hgp by (vm_compute; discriminate).
  split; [split; [exact Hp | exact Hgp] |].
  exact (proj2 (proj2 (launch_on_empty_grid env_old_driver _ _ s_init
                         Hp Hgp))
           eq_refl eq_refl eq_refl eq_refl).
Defined.



(** ** Block extents *)

Lemma block_extent_whole_warps (num_warps : Z) :
  to_uint (mul_int 32 num_warps) mod 32 = 0.
Proof.
  unfold mul_int. rewrite to_uint_wrap_int.
  change (2 ^ 32) with (32 * 2 ^ 27).
  rewrite Z.mul_mod_distr_l by lia.
  rewrite Z.mul_comm. apply Z.mod_mul. lia.
Qed.

(** Every launch [_launch] issues, on either path and for every input
    (also when [32 * num_warps] overflows), has a block of a whole number
    of warps: the x extent is a multiple of 32 and the y and z extents
    are 1. *)
Theorem launched_block_is_whole_warps (env : Env) (s : State)
    (gridX gridY gridZ num_warps num_ctas cX cY cZ shmem stream f : Z)
    (params : ArgBuffers) :
  forallb block_is_warps
    (trace_of (_launch env gridX gridY gridZ num_warps num_ctas cX cY cZ
                 shmem stream f params s)) = true.
Proof.
  assert (forall code, forallb block_is_warps (check_events code) = true)
    as Hchk.
  { intros code. unfold check_events.
    destruct (code =? CUDA_SUCCESS); reflexivity. }
  destruct (Z.lt_ge_cases 0 (grid_product gridX gridY gridZ)) as [Hp | Hp].
  - destruct (Z.eq_dec num_ctas 1) as [-> | Hn].
    + rewrite _launch_simple_path by exact Hp.
      cbn [trace_of snd forallb block_is_warps simple_call k_blockDimX
             k_blockDimY k_blockDimZ].
      rewrite block_extent_whole_warps, Hchk. reflexivity.
    + destruct (resolve_shape env s) as (s' & t & Hr & _ & Ht).
      rewrite (_launch_cluster_path env s s' t _ _ _ _ _ _ _ _ _ _ _ _ _
                 Hp Hn Hr).
      assert (forallb block_is_warps t = true) as Hload.
      { clear - Ht. induction t as [| e t IH]; [reflexivity |].
        cbn in *. apply andb_prop in Ht as [He Ht].
        rewrite (IH Ht). destruct e; cbn in *; try discriminate;
          reflexivity. }
      destruct (handle_in env s =? NULL); cbn [trace_of snd];
        [exact Hload |].
      rewrite forallb_app, Hload.
      cbn [forallb block_is_warps x_config cluster_config blockDimX
             blockDimY blockDimZ andb].
      rewrite block_extent_whole_warps, Hchk. reflexivity.
  - rewrite _launch_skipped by exact Hp. reflexivity.
Qed.

(** ** Opening the driver library *)

Lemma dlopen_count_app (t1 t2 : list Event) :
  dlopen_count (t1 ++ t2) = (dlopen_count t1 + dlopen_count t2)%nat.
Proof.
  unfold dlopen_count. rewrite List.filter_app, length_app. reflexivity.
Qed.

Lemma dlopen_count_uses_only (h : Z) (t : list Event) :
  forallb (uses_only h) t = true -> dlopen_count t = 0%nat.
Proof.
  unfold dlopen_count. induction t as [| e t IH]; [reflexivity |].
  cbn. intros H. apply andb_prop in H as [He Ht].
  destruct e; cbn in *; try discriminate; auto.
Qed.

Lemma dlopen_count_hook_events (hook : PyObject) :
  dlopen_count (hook_events hook) = 0%nat.
Proof. destruct hook; reflexivity. Qed.

Lemma dlopen_count_check_events (code : Z) :
  dlopen_count (check_events code) = 0%nat.
Proof. unfold check_events. destruct (code =? CUDA_SUCCESS); reflexivity. Qed.

Lemma resolve_dlopen (env : Env) (s : State) :
  exists s' t,
    resolves_to env s (handle_in env s) s' t /\
    cuLaunchKernelExHandle s' = handle_in env s /\
    (dlopen_count t <= 1)%nat.
Proof.
  unfold resolves_to, handle_in, outcome_of. unfold_monad.
  destruct (cuLaunchKernelExHandle s =? NULL) eqn:Hc; cbn.
  - apply Z.eqb_eq in Hc.
    destruct (dlopen env "libcuda.so" =? NULL); cbn.
    + eexists _, _. split; [right; split; reflexivity |].
      split; [exact Hc |]. cbn. lia.
    + destruct (dlsym env _ _) as [p [e |]]; cbn.
      * eexists _, _. split; [right; split; reflexivity |].
        split; [exact Hc |]. cbn. lia.
      * eexists _, _. split; [left; reflexivity |].
        split; [reflexivity |]. cbn. lia.
  - eexists _, _. split; [left; reflexivity |]. split; [reflexivity |].
    cbn. lia.
Qed.

(** One call of [_launch] opens the library at most once; if it returns,
    either it has not opened it and the cached handle is as before, or
    the cached handle is now set. *)
Lemma _launch_dlopen (env : Env) (s : State)
    (gridX gridY gridZ num_warps num_ctas cX cY cZ shmem stream f : Z)
    (params : ArgBuffers) :
  exists o s' t,
    _launch env gridX gridY gridZ num_warps num_ctas cX cY cZ shmem stream f
      params s = (o, s', t) /\
    (dlopen_count t <= 1)%nat /\
    (o = Ret tt ->
     (dlopen_count t = 0%nat /\
      cuLaunchKernelExHandle s' = cuLaunchKernelExHandle s) \/
     cuLaunchKernelExHandle s' <> NULL).
Proof.
  destruct (Z.lt_ge_cases 0 (grid_product gridX gridY gridZ)) as [Hp | Hp].
  - destruct (Z.eq_dec num_ctas 1) as [-> | Hn].
    + rewrite _launch_simple_path by exact Hp.
      eexists _, _, _. split; [reflexivity |].
      assert (dlopen_count
                (EvLaunchKernel
                   (simple_call gridX gridY gridZ num_warps shmem stream f
                      params)
                 :: check_events
                      (cuLaunchKernel env
                         (simple_call gridX gridY gridZ num_warps shmem
                            stream f params))) = 0%nat) as Hz.
      { change (dlopen_count (check_events
                  (cuLaunchKernel env
                     (simple_call gridX gridY gridZ num_warps shmem
                        stream f params))) = 0%nat).
        apply dlopen_count_check_events. }
      rewrite Hz. split; [lia |]. intros _. left.
      split; [reflexivity | apply after_check_handle].
    + destruct (resolve_dlopen env s) as (s' & t & Hr & Hh & Ht).
      rewrite (_launch_cluster_path env s s' t _ _ _ _ _ _ _ _ _ _ _ _ _
                 Hp Hn Hr).
      destruct (Z.eqb_spec (handle_in env s) NULL) as [Hz | Hz].
      * eexists _, _, _. split; [reflexivity |]. split; [exact Ht |].
        discriminate.
      * eexists _, _, _. split; [reflexivity |]. split.
        -- rewrite dlopen_count_app.
           change (dlopen_count t
                   + dlopen_count
                       (check_events
                          (cuLaunchKernelEx env
                             (mkExCall (handle_in env s)
                                (cluster_config gridX gridY gridZ num_warps
                                   cX cY cZ shmem stream) f params 0)))
                   <= 1)%nat.
           rewrite dlopen_count_check_events. lia.
        -- intros _. right. rewrite after_check_handle. congruence.
  - rewrite _launch_skipped by exact Hp.
    eexists _, _, _. split; [reflexivity |]. cbn. split; [lia |].
    intros _. left. split; reflexivity.
Qed.

Lemma launch_dlopen (env : Env) (a : LaunchArgs) (s : State) :
  exists o s' t,
    launch env a s = (o, s', t) /\
    (dlopen_count t <= 1)%nat /\
    (forall r, o = Ret r ->
     (dlopen_count t = 0%nat /\
      cuLaunchKernelExHandle s' = cuLaunchKernelExHandle s) \/
     cuLaunchKernelExHandle s' <> NULL).
Proof.
  destruct (PyArg_ParseTuple_cases a s) as [[p Hp] | [e Hp]].
  - destruct (hook_ok_cases (launch_enter_hook p) s)
      as [[_ H1] | [_ [e H1]]].
    + rewrite (launch_run env a p s s true _ Hp H1).
      destruct (marshal_any (args_obj p) s)
        as (b & s1 & Hm & _ & _ & Hh1 & _).
      rewrite (marshal_and_launch_run env p s s1 b Hm).
      destruct (_launch_dlopen env s1 (gridX p) (gridY p) (gridZ p)
                  (num_warps p) (num_ctas p) (p_clusterDimX p)
                  (p_clusterDimY p) (p_clusterDimZ p) (shared_memory p)
                  (_stream p) (_function p) b)
        as (o & s2 & t2 & Hrun & Hcount & Hret).
      rewrite Hrun. destruct o as [[] |].
      * specialize (Hret eq_refl). rewrite Hh1 in Hret.
        destruct (err_indicator s2).
        -- eexists _, _, _. split; [reflexivity |].
           rewrite dlopen_count_app, dlopen_count_hook_events.
           split; [lia |]. intros r _.
           destruct Hret as [[Hz Hs] | Hs]; [left | right]; auto.
        -- destruct (hook_ok_cases (launch_exit_hook p) s2)
             as [[_ H3] | [_ [e3 H3]]]; rewrite H3.
           ++ eexists _, _, _. split; [reflexivity |].
              rewrite !dlopen_count_app, !dlopen_count_hook_events.
              split; [lia |]. intros r _.
              destruct Hret as [[Hz Hs] | Hs]; [left | right]; auto.
              split; [lia | exact Hs].
           ++ eexists _, _, _. split; [reflexivity |].
              rewrite !dlopen_count_app, dlopen_count_hook_events.
              change (dlopen_count [EvCallObject (launch_exit_hook p)])
                with 0%nat.
              split; [lia |]. intros r _. cbn [cuLaunchKernelExHandle].
              destruct Hret as [[Hz Hs] | Hs]; [left | right]; auto.
              split; [lia | exact Hs].
      * eexists _, _, _. split; [reflexivity |].
        rewrite dlopen_count_app, dlopen_count_hook_events.
        split; [lia | discriminate].
    + rewrite (launch_run env a p s _ false _ Hp H1).
      eexists _, _, _. split; [reflexivity |]. cbn. split; [lia |].
      intros r _. left. split; reflexivity.
  - unfold launch. unfold bind at 1. rewrite Hp.
    eexists _, _, _. split; [reflexivity |]. cbn. split; [lia |].
    intros r _. left. split; reflexivity.
Qed.

(** Over any sequence of calls of the entry point, from any state and
    with any driver, the driver library is opened at most once. *)
Theorem library_opened_at_most_once (env : Env) (calls : list LaunchArgs)
    (s : State) :
  (dlopen_count (trace_of (launches env calls s)) <= 1)%nat.
Proof.
  revert s. induction calls as [| a calls IH]; intros s.
  - cbn. lia.
  - cbn [launches]. unfold bind.
    destruct (launch_dlopen env a s) as (o & s1 & t1 & H1 & Hc1 & Hret).
    rewrite H1. destruct o as [r |]; [| exact Hc1].
    specialize (IH s1).
    destruct (launches env calls s1) as [[o2 s2] t2] eqn:H2.
    cbn [trace_of snd] in *. rewrite dlopen_count_app.
    destruct (Hret r eq_refl) as [[Hz _] | Hs].
    + lia.
    + destruct (launches_cached env calls s1 Hs) as (s2' & t2' & H2' & _ & Hu).
      rewrite H2 in H2'. injection H2' as _ _ <-.
      rewrite (dlopen_count_uses_only _ _ Hu). lia.
Qed.

(** ** When the entry point does not return *)

Lemma _launch_outcome (env : Env) (s : State)
    (gridX gridY gridZ num_warps num_ctas cX cY cZ shmem stream f : Z)
    (params : ArgBuffers) :
  outcome_of (_launch env gridX gridY gridZ num_warps num_ctas cX cY cZ
                shmem stream f params s)
  = if (0 <? grid_product gridX gridY gridZ) && negb (num_ctas =? 1)
       && (handle_in env s =? NULL)
    then Trap else Ret tt.
Proof.
  destruct (Z.ltb_spec 0 (grid_product gridX gridY gridZ)) as [Hp | Hp].
  - destruct (Z.eqb_spec num_ctas 1) as [-> | Hn].
    + rewrite _launch_simple_path by exact Hp. reflexivity.
    + destruct (resolve_shape env s) as (s' & t & Hr & _ & _).
      rewrite (_launch_cluster_path env s s' t _ _ _ _ _ _ _ _ _ _ _ _ _
                 Hp Hn Hr).
      cbn [andb negb]. destruct (handle_in env s =? NULL); reflexivity.
  - rewrite _launch_skipped by exact Hp. reflexivity.
Qed.

(** [launch] fails to return in one situation only: the arguments parse,
    the enter hook passes, the grid product is positive, [num_ctas] is
    not 1 and the handle [_launch] ends up with is null.  In particular a
    call with [num_ctas = 1] always returns. *)
Theorem entry_point_traps_iff (env : Env) (a : LaunchArgs) (s : State) :
  outcome_of (launch env a s) = Trap <->
  exists p,
    PyArg_ParseTuple a s = (Ret (Some p), s, []) /\
    hook_passes (launch_enter_hook p) = true /\
    0 < grid_product (gridX p) (gridY p) (gridZ p) /\
    num_ctas p <> 1 /\
    handle_in env s = NULL.
Proof.
  assert (forall p,
            PyArg_ParseTuple a s = (Ret (Some p), s, []) ->
            hook_passes (launch_enter_hook p) = true ->
            (outcome_of (launch env a s) = Trap <->
             0 < grid_product (gridX p) (gridY p) (gridZ p) /\
             num_ctas p <> 1 /\ handle_in env s = NULL)) as Hmain.
  { intros p Hp Hpass.
    destruct (hook_ok_cases (launch_enter_hook p) s)
      as [[_ H1] | [Hno _]]; [| congruence].
    rewrite (launch_run env a p s s true _ Hp H1).
    destruct (marshal_any (args_obj p) s)
      as (b & s1 & Hm & _ & _ & Hh1 & _).
    rewrite (marshal_and_launch_run env p s s1 b Hm).
    pose proof (_launch_outcome env s1 (gridX p) (gridY p) (gridZ p)
                  (num_warps p) (num_ctas p) (p_clusterDimX p)
                  (p_clusterDimY p) (p_clusterDimZ p) (shared_memory p)
                  (_stream p) (_function p) b) as Ho.
    rewrite (handle_in_ext env s1 s Hh1) in Ho.
    destruct (_launch env _ _ _ _ _ _ _ _ _ _ _ b s1) as [[o s2] t2].
    cbn [outcome_of fst] in Ho.
    assert (outcome_of
              match o with
              | Ret _ =>
                  match err_indicator s2 with
                  | Some _ =>
                      (Ret Returned_NULL, s2,
                       hook_events (launch_enter_hook p) ++ t2)
                  | None =>
                      match hook_ok (launch_exit_hook p) s2 with
                      | (Ret ok2, s3, t3) =>
                          (Ret (if ok2 then Returned_None
                                else Returned_NULL),
                           s3, hook_events (launch_enter_hook p) ++ t2 ++ t3)
                      | (Trap, s3, t3) =>
                          (Trap, s3,
                           hook_events (launch_enter_hook p) ++ t2 ++ t3)
                      end
                  end
              | Trap =>
                  (Trap, s2, hook_events (launch_enter_hook p) ++ t2)
              end = Trap <-> o = Trap) as ->.
    { destruct o as [[] |]; [| split; reflexivity].
      destruct (err_indicator s2); [split; discriminate |].
      destruct (hook_ok_cases (launch_exit_hook p) s2)
        as [[_ H3] | [_ [e3 H3]]]; rewrite H3; split; discriminate. }
    rewrite Ho.
    destruct (Z.ltb_spec 0 (grid_product (gridX p) (gridY p) (gridZ p)));
      destruct (Z.eqb_spec (num_ctas p) 1);
      destruct (Z.eqb_spec (handle_in env s) NULL); cbn [andb negb];
      split; try discriminate; try (intros _; auto; fail);
      intros (? & ? & ?); first [lia | contradiction]. }
  destruct (PyArg_ParseTuple_cases a s) as [[p Hp] | [e Hp]].
  - destruct (hook_passes (launch_enter_hook p)) eqn:Hpass.
    + rewrite (Hmain p Hp Hpass). split.
      * intros (H1 & H2 & H3). exists p. auto.
      * intros (p' & Hp' & _ & H). rewrite Hp in Hp'.
        injection Hp' as <-. exact H.
    + destruct (hook_ok_cases (launch_enter_hook p) s)
        as [[Hyes _] | [_ [e H1]]]; [congruence |].
      rewrite (launch_run env a p s _ false _ Hp H1). split.
      * discriminate.
      * intros (p' & Hp' & Hpass' & _). rewrite Hp in Hp'.
        injection Hp' as <-. congruence.
  - assert (launch env a s
            = (Ret Returned_NULL,
               mkState (Some e) (cuLaunchKernelExHandle s), [])) as ->.
    { unfold launch. unfold bind at 1. rewrite Hp. reflexivity. }
    split; [discriminate |].
    intros (p' & Hp' & _). rewrite Hp in Hp'. discriminate.
Qed.

(** ** What the driver receives from the marshalling loop *)

Lemma marshal_as_specified (values : list Z) (s : State) :
  Forall (fun v => 0 <= v < 2 ^ 64) values ->
  marshal (PyLong <$> values) s = (Ret (buffers_as_specified values), s, []).
Proof.
  intros Hall. unfold marshal, PyTuple_Size, malloc_buffers.
  rewrite length_fmap.
  destruct (marshal_loop_in_range values s (length values) Hall 0%nat
              (mkBuffers (replicate (length values) None)
                         (replicate (length values) None)))
    as (b & Hrun & Hv & Hp & _ & Hnew).
  { reflexivity. }
  { cbn. apply length_replicate. }
  { cbn. apply length_replicate. }
  rewrite Hrun. f_equal. f_equal. f_equal.
  destruct b as [vals ptrs]. cbn in *. unfold buffers_as_specified.
  f_equal; apply list_eq; intros i; rewrite list_lookup_fmap.
  - destruct (values !! i) as [v |] eqn:Hi; cbn.
    + exact (proj1 (Hnew i v ltac:(lia) Hi)).
    + apply lookup_ge_None_2. apply lookup_ge_None_1 in Hi. lia.
  - destruct (values !! i) as [v |] eqn:Hi.
    + rewrite lookup_seq_lt by (apply lookup_lt_Some in Hi; exact Hi).
      cbn. exact (proj2 (Hnew i v ltac:(lia) Hi)).
    + apply lookup_ge_None_1 in Hi.
      rewrite lookup_seq_ge by exact Hi. cbn.
      apply lookup_ge_None_2. lia.
Qed.

Lemma buffers_as_specified_slots (values : list Z) (i : nat) (v : Z) :
  values !! i = Some v ->
  arg_vals (buffers_as_specified values) !! i = Some (Some v) /\
  arg_ptrs (buffers_as_specified values) !! i = Some (Some i) /\
  deref (buffers_as_specified values) i = Some v.
Proof.
  intros Hi.
  assert (arg_vals (buffers_as_specified values) !! i = Some (Some v)) as Hv.
  { cbn. rewrite list_lookup_fmap, Hi. reflexivity. }
  assert (arg_ptrs (buffers_as_specified values) !! i = Some (Some i)) as Hp.
  { cbn. rewrite list_lookup_fmap.
    rewrite lookup_seq_lt by (apply lookup_lt_Some in Hi; exact Hi).
    reflexivity. }
  split; [exact Hv |]. split; [exact Hp |].
  unfold deref. rewrite Hp, Hv. reflexivity.
Qed.

Lemma hook_events_not_launches (hook : PyObject) :
  List.filter is_launch (hook_events hook) = [] /\
  List.filter is_launch [EvCallObject hook] = [].
Proof. destruct hook; split; reflexivity. Qed.

(** After a successful parse and enter hook, the launches of [launch] are
    those of [_launch] on the buffers the loop has left. *)
Lemma launch_launches (env : Env) (a : LaunchArgs) (p : Parsed)
    (s s1 : State) (b : ArgBuffers) :
  PyArg_ParseTuple a s = (Ret (Some p), s, []) ->
  hook_passes (launch_enter_hook p) = true ->
  marshal (args_obj p) s = (Ret b, s1, []) ->
  List.filter is_launch (trace_of (launch env a s))
  = List.filter is_launch
      (trace_of (_launch env (gridX p) (gridY p) (gridZ p) (num_warps p)
                   (num_ctas p) (p_clusterDimX p) (p_clusterDimY p)
                   (p_clusterDimZ p) (shared_memory p) (_stream p)
                   (_function p) b s1)).
Proof.
  intros Hp Hpass Hm.
  destruct (hook_ok_cases (launch_enter_hook p) s)
    as [[_ H1] | [Hno _]]; [| congruence].
  rewrite (launch_run env a p s s true _ Hp H1).
  rewrite (marshal_and_launch_run env p s s1 b Hm).
  destruct (hook_events_not_launches (launch_enter_hook p)) as [He1 _].
  destruct (_launch env _ _ _ _ _ _ _ _ _ _ _ b s1) as [[[[] |] s2] t2];
    cbn [trace_of snd].
  - destruct (err_indicator s2).
    + cbn [trace_of snd]. rewrite List.filter_app, He1. reflexivity.
    + destruct (hook_events_not_launches (launch_exit_hook p)) as [He3 He3'].
      destruct (hook_ok_cases (launch_exit_hook p) s2)
        as [[_ H3] | [_ [e3 H3]]]; rewrite H3; cbn [trace_of snd];
        rewrite !List.filter_app, He1, ?He3, ?He3', app_nil_r; reflexivity.
  - rewrite List.filter_app, He1. reflexivity.
Qed.

(** C5.  For an argument tuple of integers in the range of [uint64_t],
    the marshalling loop of [launch] sets no exception and leaves exactly
    the specified buffers: both have the length of the input, slot [i] of
    the word buffer holds element [i], entry [i] of the pointer array is
    the address of slot [i], and dereferencing it yields element [i].
    These buffers are what the driver receives: after a successful parse
    and enter hook, on a positive grid, the one launch of [launch] is
    [cuLaunchKernel] (for [num_ctas = 1]) or the extended launch (through
    a non-null handle) with them as its argument-pointer array.  For the
    empty tuple the buffers are empty, and the launch is issued all the
    same. *)
Theorem marshal_order_preserving_lossless (env : Env) (a : LaunchArgs)
    (p : Parsed) (s : State) (values : list Z) :
  Forall (fun v => 0 <= v < 2 ^ 64) values ->
  PyArg_ParseTuple a s = (Ret (Some p), s, []) ->
  args_obj p = PyLong <$> values ->
  hook_passes (launch_enter_hook p) = true ->
  0 < grid_product (gridX p) (gridY p) (gridZ p) ->
  marshal (args_obj p) s = (Ret (buffers_as_specified values), s, []) /\
  length (arg_vals (buffers_as_specified values)) = length values /\
  length (arg_ptrs (buffers_as_specified values)) = length values /\
  (forall (i : nat) (v : Z), values !! i = Some v ->
     arg_vals (buffers_as_specified values) !! i = Some (Some v) /\
     arg_ptrs (buffers_as_specified values) !! i = Some (Some i) /\
     deref (buffers_as_specified values) i = Some v) /\
  (values = [] -> buffers_as_specified values = mkBuffers [] []) /\
  (num_ctas p = 1 ->
   List.filter is_launch (trace_of (launch env a s))
   = [EvLaunchKernel
        (simple_call (gridX p) (gridY p) (gridZ p) (num_warps p)
           (shared_memory p) (_stream p) (_function p)
           (buffers_as_specified values))]) /\
  (num_ctas p <> 1 -> handle_in env s <> NULL ->
   List.filter is_launch (trace_of (launch env a s))
   = [EvLaunchKernelEx
        (mkExCall (handle_in env s)
           (cluster_config (gridX p) (gridY p) (gridZ p) (num_warps p)
              (p_clusterDimX p) (p_clusterDimY p) (p_clusterDimZ p)
              (shared_memory p) (_stream p))
           (_function p) (buffers_as_specified values) 0)]).
Proof.
  intros Hall Hp Hargs Hpass Hgp.
  pose proof (marshal_as_specified values s Hall) as Hm.
  rewrite <- Hargs in Hm.
  split; [exact Hm |].
  split; [cbn; apply length_fmap |].
  split; [cbn; rewrite length_fmap; apply length_seq |].
  split; [apply buffers_as_specified_slots |].
  split; [intros ->; reflexivity |].
  rewrite (launch_launches env a p s s _ Hp Hpass Hm). split.
  - intros Hn. rewrite Hn. apply simple_path_launches. exact Hgp.
  - intros Hn Hh. rewrite cluster_path_launches by assumption.
    destruct (Z.eqb_spec (handle_in env s) NULL); [contradiction |].
    reflexivity.
Qed.

(** Scenario D of the specification, the argument list
    [5; 1000000000000], and the empty argument list of Scenario A. *)
Lemma marshal_order_preserving_lossless_witness :
  (Forall (fun v => 0 <= v < 2 ^ 64) [5; 1000000000000] /\
   PyArg_ParseTuple (args_two_words 1) s_init
   = (Ret (Some (parsed_two_words 1)), s_init, []) /\
   0 < grid_product 2 2 1) /\
  List.filter is_launch (trace_of (launch env_ok (args_two_words 1) s_init))
  = [EvLaunchKernel
       (mkCall 7 2 2 1 256 1 1 1024 3
          (mkBuffers [Some 5; Some 1000000000000] [Some 0%nat; Some 1%nat])
          0)] /\
  List.filter is_launch (trace_of (launch env_ok args_hooked s_init))
  = [EvLaunchKernel (mkCall 7 1 1 1 128 1 1 0 0 (mkBuffers [] []) 0)].
Proof.
  assert (Forall (fun v => 0 <= v < 2 ^ 64) [5; 1000000000000]) as Hall.
  { repeat constructor; lia. }
  assert (PyArg_ParseTuple (args_two_words 1) s_init
          = (Ret (Some (parsed_two_words 1)), s_init, [])) as Hp
    by reflexivity.
  split; [split; [exact Hall | split; [exact Hp | reflexivity]] |].
  split.
  - exact (proj1 (proj2 (proj2 (proj2 (proj2 (proj2
             (marshal_order_preserving_lossless env_ok (args_two_words 1)
                (parsed_two_words 1) s_init [5; 1000000000000]
                Hall Hp eq_refl eq_refl eq_refl)))))) eq_refl).
  - exact (proj1 (proj2 (proj2 (proj2 (proj2 (proj2
             (marshal_order_preserving_lossless env_ok args_hooked
                parsed_hooked s_init [] (List.Forall_nil _)
                eq_refl eq_refl eq_refl eq_refl)))))) eq_refl).
Defined.

(** C9, as stated, fails: with an exit hook that is not [None] and a
    driver that refuses the launch, the launch is issued and the exit hook
    is never called. *)
Lemma exit_hook_follows_launch_counterexample :
  ~ exit_hook_follows_launch_at env_launch_fails args_exit_hook s_init.
Proof.
  intros H.
  assert (EvCallObject hook_returns ∈ [EvGetErrorString 719]) as Hin.
  { apply (H (mkParsed 1 1 1 4 1 1 1 1 0 0 7 Py_None hook_returns Py_None [])
             eq_refl ltac:(discriminate) []
             (EvLaunchKernel (mkCall 7 1 1 1 128 1 1 0 0 (mkBuffers [] []) 0)));
      reflexivity. }
  apply list_elem_of_In in Hin. destruct Hin as [Hin | []]. discriminate.
Qed.
